(** * Finance tracker: dashboard aggregation, loan progress and balance update

    A shallow embedding of the client-side arithmetic of the finance tracker
    (Dashboard.tsx, Accounts.tsx, Loans.tsx, AddTransactionModal.tsx,
    Transactions.tsx, and the routing of App.tsx and Layout.tsx) together
    with the part of the relational store those components talk to, followed
    by the properties of the specification stated over that embedding.

    Conventions of the embedding.
    - A JavaScript [number] is read in two ways.  [JS.number] is the exact
      reading: a rational, one of the two infinities, or NaN, with division
      by zero, comparisons with NaN, [Math.max] and [Math.min] as in
      IEEE-754 and finite arithmetic without rounding.  It is used for what
      does not turn on rounding: which rows enter a sum and in which order,
      signs and comparisons of sums, special values, bounds.  [Double] is
      the binary64 reading, on the Standard Library's specification of
      floating-point arithmetic; it is used for the total balance, where the
      order of the additions decides the result.
    - A [numeric(15, 2)] column rounds what is written to it to two decimal
      places, half away from zero, and refuses a value whose rounded
      magnitude reaches 10^13 ([Numeric]).  A stored value is a rational
      with denominator 100.
    - Rationals are [Q], so statements use [==] on [Q] and [=n=] on
      [JS.number].
    - A calendar date is a triple.  A [Date] object carries its local
      calendar fields and the time zone of the runtime; [toISOString()] and
      [new Date('YYYY-MM-DD')] go through UTC, so the date sent to the store
      and the fields read from a stored date depend on the zone ([Clock]).
    - A table is the list of its rows; a request is a filter over it, subject
      to the row-level policies of the migration.  Requests are answered
      with data; the store does not change while a component reads it. *)

From Stdlib Require Import List Bool ZArith QArith Qminmax Qround Lqa Lia
  String Ascii Permutation.
From Stdlib Require SpecFloat.
Import ListNotations.
Open Scope Q_scope.

(** ** JavaScript numbers *)

Module JS.

Inductive number : Type :=
| Fin (q : Q)
| PosInf
| NegInf
| NaN.

Definition Qlt_bool (a b : Q) : bool := negb (Qle_bool b a).

(** Sign of a finite value, as [Z]: -1, 0 or 1. *)
Definition Qsgn (q : Q) : Z := Z.sgn (Qnum q).

(** [a + b] *)
Definition add (a b : number) : number :=
  match a, b with
  | NaN, _ | _, NaN => NaN
  | PosInf, NegInf | NegInf, PosInf => NaN
  | PosInf, _ | _, PosInf => PosInf
  | NegInf, _ | _, NegInf => NegInf
  | Fin x, Fin y => Fin (x + y)
  end.

(** unary minus *)
Definition neg (a : number) : number :=
  match a with
  | Fin x => Fin (- x)
  | PosInf => NegInf
  | NegInf => PosInf
  | NaN => NaN
  end.

(** [a - b] *)
Definition sub (a b : number) : number :=
  match a, b with
  | Fin x, Fin y => Fin (x - y)
  | _, _ => add a (neg b)
  end.

(** An infinity of the given sign; sign 0 gives NaN (infinity times zero,
    zero over zero). *)
Definition inf_of_sign (s : Z) : number :=
  match s with
  | Z0 => NaN
  | Zpos _ => PosInf
  | Zneg _ => NegInf
  end.

Definition sign (a : number) : option Z :=
  match a with
  | Fin x => Some (Qsgn x)
  | PosInf => Some 1%Z
  | NegInf => Some (-1)%Z
  | NaN => None
  end.

(** [a * b] *)
Definition mul (a b : number) : number :=
  match a, b with
  | NaN, _ | _, NaN => NaN
  | Fin x, Fin y => Fin (x * y)
  | _, _ =>
      match sign a, sign b with
      | Some sa, Some sb => inf_of_sign (sa * sb)
      | _, _ => NaN
      end
  end.

(** [a / b]; a zero divisor is the positive zero. *)
Definition div (a b : number) : number :=
  match a, b with
  | NaN, _ | _, NaN => NaN
  | Fin x, Fin y =>
      if Qeq_bool y 0 then inf_of_sign (Qsgn x) else Fin (x / y)
  | Fin _, _ => Fin 0
  | _, Fin y =>
      match sign a with
      | Some sa => inf_of_sign (sa * (if Qlt_bool y 0 then -1 else 1))
      | None => NaN
      end
  | _, _ => NaN
  end.

(** [a >= b] *)
Definition ge (a b : number) : bool :=
  match a, b with
  | NaN, _ | _, NaN => false
  | Fin x, Fin y => Qle_bool y x
  | PosInf, _ => true
  | _, NegInf => true
  | _, _ => false
  end.

(** [a > b] *)
Definition gt (a b : number) : bool :=
  match a, b with
  | NaN, _ | _, NaN => false
  | Fin x, Fin y => Qlt_bool y x
  | PosInf, PosInf => false
  | PosInf, _ => true
  | NegInf, NegInf => false
  | _, NegInf => true
  | _, _ => false
  end.

(** [Math.max(a, b)] *)
Definition max (a b : number) : number :=
  match a, b with
  | NaN, _ | _, NaN => NaN
  | _, _ => if ge a b then a else b
  end.

(** [Math.min(a, b)] *)
Definition min (a b : number) : number :=
  match a, b with
  | NaN, _ | _, NaN => NaN
  | _, _ => if ge b a then a else b
  end.

(** Equality of numbers up to the representation of the rational. *)
Definition eqn (a b : number) : Prop :=
  match a, b with
  | Fin x, Fin y => x == y
  | PosInf, PosInf | NegInf, NegInf | NaN, NaN => True
  | _, _ => False
  end.

(** [xs.reduce((sum, x) => sum + Number(f(x)), 0)] *)
Definition reduce_sum {A : Type} (f : A -> Q) (xs : list A) : number :=
  fold_left (fun sum x => add sum (Fin (f x))) xs (Fin 0).

(** A value read through a property access: [undefined] when the object has
    no such property, [null], or a string. *)
Inductive value : Type :=
| Undefined
| Null
| Str (s : string).

(** Truthiness, for the values above. *)
Definition truthy (v : value) : bool :=
  match v with
  | Str s => negb (String.eqb s "")
  | _ => false
  end.

(** [a === b] *)
Definition strict_eq (a b : value) : bool :=
  match a, b with
  | Undefined, Undefined | Null, Null => true
  | Str s, Str t => String.eqb s t
  | _, _ => false
  end.

Definition of_nullable (o : option string) : value :=
  match o with
  | Some s => Str s
  | None => Null
  end.

End JS.

Notation "a =n= b" := (JS.eqn a b) (at level 70, no associativity).

(** ** Persisted schema (the columns of the migration the components use) *)

Module Schema.

(** A value of a [date] column, or the calendar fields of an ISO date. *)
Record date : Type := mkDate { year : Z; month : Z; day : Z }.

(** Order of ISO dates: lexicographic on year, month, day. *)
Definition date_compare (a b : date) : comparison :=
  match Z.compare (year a) (year b) with
  | Eq =>
      match Z.compare (month a) (month b) with
      | Eq => Z.compare (day a) (day b)
      | c => c
      end
  | c => c
  end.

Definition date_geb (a b : date) : bool :=
  match date_compare a b with Lt => false | _ => true end.

Definition date_leb (a b : date) : bool := date_geb b a.

(** The Gregorian calendar, as far as the day before a date needs it. *)
Definition is_leap_year (y : Z) : bool :=
  (Z.eqb (y mod 4) 0 && negb (Z.eqb (y mod 100) 0)) || Z.eqb (y mod 400) 0.

Definition days_in_month (y m : Z) : Z :=
  if Z.eqb m 2 then (if is_leap_year y then 29 else 28)
  else if Z.eqb m 4 || Z.eqb m 6 || Z.eqb m 9 || Z.eqb m 11 then 30
  else 31.

Definition previous_day (d : date) : date :=
  if (1 <? day d)%Z then mkDate (year d) (month d) (day d - 1)
  else if (1 <? month d)%Z
       then mkDate (year d) (month d - 1) (days_in_month (year d) (month d - 1))
       else mkDate (year d - 1) 12 31.

Inductive account_type : Type :=
| cash | bank | credit_card | upi | investment | loan | other.

Inductive transaction_type : Type := income | expense | transfer.

Inductive transaction_source : Type := manual | sms | ocr | import | api.

Inductive budget_period : Type := daily | weekly | monthly | yearly | custom.

Definition transaction_type_eqb (a b : transaction_type) : bool :=
  match a, b with
  | income, income | expense, expense | transfer, transfer => true
  | _, _ => false
  end.

End Schema.

Module Account.
Record Row : Type := mkRow {
  id : string;
  user_id : string;
  name : string;
  type : Schema.account_type;
  provider : option string;
  account_number : option string;
  balance : Q;
  currency : string;
  color : string;
  icon : string;
  is_active : bool;
  metadata : string;
  created_at : string;
  updated_at : string
}.

(** The row after [UPDATE accounts SET balance = b]. *)
Definition set_balance (b : Q) (r : Row) : Row :=
  mkRow (id r) (user_id r) (name r) (type r) (provider r) (account_number r)
        b (currency r) (color r) (icon r) (is_active r) (metadata r)
        (created_at r) (updated_at r).
End Account.

Module Category.
Record Row : Type := mkRow {
  id : string;
  user_id : option string;
  name : string;
  type : Schema.transaction_type;
  is_system : bool
}.
End Category.

Module Transaction.
Record Row : Type := mkRow {
  id : string;
  user_id : string;
  account_id : string;
  category_id : option string;
  amount : Q;
  type : Schema.transaction_type;
  merchant : option string;
  description : option string;
  transaction_date : Schema.date;
  source : Schema.transaction_source
}.
End Transaction.

Module Budget.
Record Row : Type := mkRow {
  id : string;
  user_id : string;
  category_id : option string;
  account_id : option string;
  name : string;
  amount : Q;
  period : Schema.budget_period;
  alert_at_percentage : Z;
  is_active : bool
}.
End Budget.

Module Loan.
Record Row : Type := mkRow {
  id : string;
  name : string;
  principal_amount : Q;
  remaining_amount : Q;
  interest_rate : option Q;
  emi_amount : option Q;
  emi_day : option Z;
  start_date : Schema.date;
  end_date : option Schema.date;
  lender : option string;
  loan_type : option string
}.
End Loan.

(** ** Columns of type [numeric(15, 2)] *)

Module Numeric.

(** Rounding to a whole number, ties away from zero. *)
Definition round_half_away (x : Q) : Z :=
  if Qle_bool 0 x then Qfloor (x + (1 # 2))
  else (- Qfloor (- x + (1 # 2)))%Z.

(** The value with two decimal places that a written value is rounded to. *)
Definition round2 (q : Q) : Q := round_half_away (q * 100) # 100.

(** Fewer than fourteen digits before the decimal point. *)
Definition limit : Q := 10000000000000.

Definition in_range (q : Q) : bool :=
  JS.Qlt_bool (- limit) q && JS.Qlt_bool q limit.

(** Writing [q] to the column: the rounded value is stored, or the write is
    an error (numeric field overflow) when the rounded value is out of
    range. *)
Definition write (q : Q) : option Q :=
  if in_range (round2 q) then Some (round2 q) else None.

(** A number sent as JSON to a column that admits NULL: a number that is not
    finite travels as [null].  A NULL balance is represented by 0, the value
    every [Number(acc.balance)] of the components reads it as. *)
Definition write_nullable (n : JS.number) : option Q :=
  match n with
  | JS.Fin q => write q
  | _ => Some 0
  end.

(** A value with at most two decimal places. *)
Definition is_cents (q : Q) : Prop := exists n : Z, q == n # 100.

End Numeric.

(** ** The remote store: tables, row-level security and the requests used *)

Module Store.

Record Database : Type := mkDatabase {
  accounts : list Account.Row;
  categories : list Category.Row;
  transactions : list Transaction.Row;
  budgets : list Budget.Row
}.

(** Policies [USING (user_id = auth.uid())] on accounts, transactions and
    budgets: a request of user [uid] sees and changes only its own rows. *)
Definition account_policy (uid : string) (r : Account.Row) : bool :=
  String.eqb (Account.user_id r) uid.

Definition transaction_policy (uid : string) (r : Transaction.Row) : bool :=
  String.eqb (Transaction.user_id r) uid.

Definition budget_policy (uid : string) (r : Budget.Row) : bool :=
  String.eqb (Budget.user_id r) uid.

(** [.single()]: the row when the request yields exactly one, no data
    otherwise. *)
Definition single {A : Type} (rows : list A) : option A :=
  match rows with
  | [r] => Some r
  | _ => None
  end.

(** [from('accounts').select(..).eq('user_id', u).eq('is_active', true)]
    issued by [uid]. *)
Definition active_accounts (db : Database) (uid u : string)
  : list Account.Row :=
  filter (fun r => account_policy uid r
                   && String.eqb (Account.user_id r) u
                   && Bool.eqb (Account.is_active r) true)
         (accounts db).

(** [from('transactions').select(..).eq('user_id', u)
      .gte('transaction_date', start)] issued by [uid]. *)
Definition transactions_since (db : Database) (uid u : string)
  (start : Schema.date) : list Transaction.Row :=
  filter (fun r => transaction_policy uid r
                   && String.eqb (Transaction.user_id r) u
                   && Schema.date_geb (Transaction.transaction_date r) start)
         (transactions db).

(** The same request with the further filter [.eq('type', 'expense')]. *)
Definition expenses_since (db : Database) (uid u : string)
  (start : Schema.date) : list Transaction.Row :=
  filter (fun r => transaction_policy uid r
                   && String.eqb (Transaction.user_id r) u
                   && Schema.transaction_type_eqb (Transaction.type r)
                        Schema.expense
                   && Schema.date_geb (Transaction.transaction_date r) start)
         (transactions db).

(** [from('budgets').select(..).eq('user_id', u).eq('is_active', true)]. *)
Definition active_budgets (db : Database) (uid u : string)
  : list Budget.Row :=
  filter (fun r => budget_policy uid r
                   && String.eqb (Budget.user_id r) u
                   && Bool.eqb (Budget.is_active r) true)
         (budgets db).

(** [from('accounts').select('balance').eq('id', i)] issued by [uid]. *)
Definition accounts_by_id (db : Database) (uid i : string)
  : list Account.Row :=
  filter (fun r => account_policy uid r && String.eqb (Account.id r) i)
         (accounts db).

(** [from('accounts').update({ balance }).eq('id', i)] issued by [uid].  The
    column rounds what it is sent; a value out of its range is an error and
    nothing is changed.  The migration defines no trigger, so no other
    column changes. *)
Definition update_balance (db : Database) (uid i : string)
  (newBalance : JS.number) : Database :=
  match Numeric.write_nullable newBalance with
  | Some b =>
      mkDatabase
        (map (fun r =>
                if account_policy uid r && String.eqb (Account.id r) i
                then Account.set_balance b r else r)
             (accounts db))
        (categories db) (transactions db) (budgets db)
  | None => db
  end.

(** The fields of [from('transactions').insert({..})]. *)
Record TransactionInsert : Type := mkTransactionInsert {
  ins_user_id : string;
  ins_account_id : string;
  ins_category_id : option string;
  ins_amount : JS.number;
  ins_type : Schema.transaction_type;
  ins_merchant : option string;
  ins_description : option string;
  ins_transaction_date : Schema.date;
  ins_source : Schema.transaction_source
}.

Definition has_account (db : Database) (i : string) : bool :=
  existsb (fun r => String.eqb (Account.id r) i) (accounts db).

Definition has_category (db : Database) (o : option string) : bool :=
  match o with
  | None => true
  | Some c => existsb (fun r => String.eqb (Category.id r) c) (categories db)
  end.

(** The amount an insert stores: none when the number is not finite
    ([amount numeric(15, 2) NOT NULL]) or out of the range of the column. *)
Definition stored_amount (n : JS.number) : option Q :=
  match n with
  | JS.Fin a => Numeric.write a
  | _ => None
  end.

(** The insert issued by [uid]; [fresh] is the key the store generates.  It
    is refused (an error is returned) when the amount cannot be stored, when
    the policy [WITH CHECK (user_id = auth.uid())] fails, or when a foreign
    key has no target. *)
Definition insert_transaction (db : Database) (uid fresh : string)
  (t : TransactionInsert) : option Database :=
  match stored_amount (ins_amount t) with
  | Some a =>
      if String.eqb (ins_user_id t) uid
         && has_account db (ins_account_id t)
         && has_category db (ins_category_id t)
      then Some (mkDatabase
                   (accounts db) (categories db)
                   (transactions db ++
                      [Transaction.mkRow fresh (ins_user_id t)
                         (ins_account_id t) (ins_category_id t) a
                         (ins_type t) (ins_merchant t) (ins_description t)
                         (ins_transaction_date t) (ins_source t)])
                   (budgets db))
      else None
  | None => None
  end.

End Store.

(** ** The [Date] object, as far as the components read it *)

Module Clock.

(** The time zone of the runtime: what [getTimezoneOffset()] gives, in
    minutes and positive west of UTC, at the instant that is local midnight
    of a date and at the instant that is UTC midnight of a date.  An offset
    is less than a day in magnitude. *)
Record Zone : Type := mkZone {
  offsetAtLocalMidnight : Schema.date -> Z;
  offsetAtUtcMidnight : Schema.date -> Z
}.

(** A zone with one offset all year. *)
Definition fixed (minutes : Z) : Zone :=
  mkZone (fun _ => minutes) (fun _ => minutes).

(** A [Date] object: its local calendar fields ([getMonth] counts from 0),
    and the zone of the runtime it lives in. *)
Record Date : Type := mkDate {
  getFullYear : Z;
  getMonth : Z;
  getDate : Z;
  zone : Zone
}.

(** [new Date(iso)] for the text of a [date] column: the instant is UTC
    midnight of that date, and the fields read from it are local, so west of
    UTC they are those of the evening before. *)
Definition of_iso (z : Zone) (d : Schema.date) : Date :=
  let local :=
    if (0 <? offsetAtUtcMidnight z d)%Z then Schema.previous_day d else d in
  mkDate (Schema.year local) (Schema.month local - 1) (Schema.day local) z.

(** The first day of month [m] (counted from 0) of year [y]. *)
Definition first_of_month (y m : Z) : Schema.date :=
  Schema.mkDate y (m + 1) 1.

(** [new Date(now.getFullYear(), now.getMonth(), 1).toISOString()] as a
    [date] column is compared with it: the UTC date of the instant that is
    local midnight of the first of the month, so east of UTC the last day of
    the month before. *)
Definition startOfMonth (now : Date) : Schema.date :=
  let first := first_of_month (getFullYear now) (getMonth now) in
  if (offsetAtLocalMidnight (zone now) first <? 0)%Z
  then Schema.previous_day first else first.

End Clock.

(** ** Accounts.tsx *)

Module Accounts.

(** [accounts.reduce((sum, acc) => sum + Number(acc.balance), 0)] *)
Definition totalBalance (accounts : list Account.Row) : JS.number :=
  JS.reduce_sum Account.balance accounts.

End Accounts.

(** ** Dashboard.tsx *)

Module Dashboard.

Record DashboardStats : Type := mkStats {
  totalBalance : JS.number;
  monthlyIncome : JS.number;
  monthlyExpense : JS.number;
  savingsRate : JS.number
}.

Record BudgetAlert : Type := mkAlert {
  id : string;
  name : string;
  spent : JS.number;
  limit : JS.number;
  percentage : JS.number
}.

Record State : Type := mkState {
  stats : DashboardStats;
  budgetAlerts : list BudgetAlert
}.

(** Rows as the requests shape them: [select('balance')],
    [select('amount, type')], [select('amount')] and
    [select('id, name, amount, category_id, categories(name)')]. *)
Record BalanceRow : Type := mkBalanceRow { balance : Q }.

Record AmountTypeRow : Type := mkAmountTypeRow {
  at_amount : Q;
  at_type : Schema.transaction_type
}.

Record AmountRow : Type := mkAmountRow { amount : Q }.

Record BudgetRow : Type := mkBudgetRow {
  b_id : string;
  b_name : string;
  b_amount : Q;
  b_category_id : option string
}.

Definition select_balance (r : Account.Row) : BalanceRow :=
  mkBalanceRow (Account.balance r).

Definition select_amount_type (r : Transaction.Row) : AmountTypeRow :=
  mkAmountTypeRow (Transaction.amount r) (Transaction.type r).

Definition select_amount (r : Transaction.Row) : AmountRow :=
  mkAmountRow (Transaction.amount r).

Definition select_budget (r : Budget.Row) : BudgetRow :=
  mkBudgetRow (Budget.id r) (Budget.name r) (Budget.amount r)
              (Budget.category_id r).

(** [t.category_id] on a row of [select('amount')]: the object has the one
    property [amount]. *)
Definition category_id (t : AmountRow) : JS.value := JS.Undefined.

(** [data.filter(t => t.type === ty).reduce(.. + Number(t.amount), 0)] *)
Definition sum_of_type (ty : Schema.transaction_type)
  (data : list AmountTypeRow) : JS.number :=
  JS.reduce_sum at_amount
    (filter (fun t => Schema.transaction_type_eqb (at_type t) ty) data).

(** [Math.max(0, income > 0 ? ((income - expense) / income) * 100 : 0)] *)
Definition computeSavingsRate (income expense : JS.number) : JS.number :=
  let savingsRate :=
    if JS.gt income (JS.Fin 0)
    then JS.mul (JS.div (JS.sub income expense) income) (JS.Fin 100)
    else JS.Fin 0 in
  JS.max (JS.Fin 0) savingsRate.

(** The body of the loop over the budgets, up to the threshold test. *)
Definition budgetSpent (transactions : list AmountRow) (budget : BudgetRow)
  : JS.number :=
  if JS.truthy (JS.of_nullable (b_category_id budget))
  then JS.reduce_sum amount
         (filter (fun t => JS.strict_eq (category_id t)
                             (JS.of_nullable (b_category_id budget)))
                 transactions)
  else JS.reduce_sum amount transactions.

Definition budgetPercentage (transactions : list AmountRow)
  (budget : BudgetRow) : JS.number :=
  JS.mul (JS.div (budgetSpent transactions budget) (JS.Fin (b_amount budget)))
         (JS.Fin 100).

(** One iteration: [if (percentage >= 80) alerts.push({..})]. *)
Definition budgetStep (transactions : list AmountRow)
  (alerts : list BudgetAlert) (budget : BudgetRow) : list BudgetAlert :=
  let spent := budgetSpent transactions budget in
  let percentage := budgetPercentage transactions budget in
  if JS.ge percentage (JS.Fin 80)
  then alerts ++ [mkAlert (b_id budget) (b_name budget) spent
                          (JS.Fin (b_amount budget)) percentage]
  else alerts.

Definition computeBudgetAlerts (transactions : list AmountRow)
  (budgets : list BudgetRow) : list BudgetAlert :=
  fold_left (budgetStep transactions) budgets [].

(** [loadDashboardData], for the session [user] at the instant [now].  The
    request inside the loop over the budgets is the same at every iteration
    and is written once, as [expenseRes]. *)
Definition loadDashboardData (db : Store.Database) (user : option string)
  (now : Clock.Date) (st : State) : State :=
  match user with
  | None => st
  | Some uid =>
      let startOfMonth := Clock.startOfMonth now in
      let accountsRes := map select_balance (Store.active_accounts db uid uid) in
      let transactionsRes :=
        map select_amount_type (Store.transactions_since db uid uid startOfMonth) in
      let budgetsRes := map select_budget (Store.active_budgets db uid uid) in
      let expenseRes :=
        map select_amount (Store.expenses_since db uid uid startOfMonth) in
      let total := JS.reduce_sum balance accountsRes in
      let income := sum_of_type Schema.income transactionsRes in
      let expense := sum_of_type Schema.expense transactionsRes in
      mkState (mkStats total income expense (computeSavingsRate income expense))
              (computeBudgetAlerts expenseRes budgetsRes)
  end.

End Dashboard.

(** ** Loans.tsx *)

Module Loans.

(** [getMonthsRemaining], evaluated on the day [today]. *)
Definition getMonthsRemaining (today : Clock.Date)
  (endDate : option Schema.date) : option Z :=
  match endDate with
  | None => None
  | Some e =>
      let end_ := Clock.of_iso (Clock.zone today) e in
      let months :=
        ((Clock.getFullYear end_ - Clock.getFullYear today) * 12
         + (Clock.getMonth end_ - Clock.getMonth today))%Z in
      Some (Z.max 0 months)
  end.

(** [loans.reduce((sum, loan) => sum + loan.remaining_amount, 0)] and the
    same over [principal_amount]. *)
Definition totalDebt (loans : list Loan.Row) : JS.number :=
  JS.reduce_sum Loan.remaining_amount loans.

Definition totalPrincipal (loans : list Loan.Row) : JS.number :=
  JS.reduce_sum Loan.principal_amount loans.

Definition totalPaidOff (loans : list Loan.Row) : JS.number :=
  JS.sub (totalPrincipal loans) (totalDebt loans).

(** [((loan.principal_amount - loan.remaining_amount) /
      loan.principal_amount) * 100] *)
Definition loanProgress (loan : Loan.Row) : JS.number :=
  JS.mul
    (JS.div (JS.sub (JS.Fin (Loan.principal_amount loan))
                    (JS.Fin (Loan.remaining_amount loan)))
            (JS.Fin (Loan.principal_amount loan)))
    (JS.Fin 100).

(** What a loan card displays: the number behind the label
    [loanProgress.toFixed(0)%], the width [Math.min(loanProgress, 100)%] of
    the bar, and the months left. *)
Record Card : Type := mkCard {
  label : JS.number;
  barWidth : JS.number;
  monthsRemaining : option Z
}.

Definition card (today : Clock.Date) (loan : Loan.Row) : Card :=
  mkCard (loanProgress loan)
         (JS.min (loanProgress loan) (JS.Fin 100))
         (getMonthsRemaining today (Loan.end_date loan)).

End Loans.

(** ** AddTransactionModal.tsx *)

Module AddTransactionModal.

Inductive form_type : Type := expense | income.

Definition to_transaction_type (t : form_type) : Schema.transaction_type :=
  match t with
  | expense => Schema.expense
  | income => Schema.income
  end.

(** The fields of the form; [date] is [None] for a text that is no date. *)
Record Form : Type := mkForm {
  type : form_type;
  amount : string;
  accountId : string;
  categoryId : string;
  merchant : string;
  description : string;
  date : option Schema.date
}.

Inductive outcome : Type :=
| Ignored     (* the guard at the top returned *)
| Failed      (* the insert was refused: the alert is shown *)
| Submitted.  (* onSuccess, resetForm, onClose *)

(** [s || null] *)
Definition or_null (s : string) : option string :=
  if String.eqb s "" then None else Some s.

Section WithParseFloat.

(** The standard function [parseFloat], left abstract. *)
Variable parseFloat : string -> JS.number.

(** [handleSubmit], for the session [user]; [fresh] is the key the store
    gives the inserted row. *)
Definition handleSubmit (db : Store.Database) (user : option string)
  (fresh : string) (f : Form) : Store.Database * outcome :=
  match user with
  | None => (db, Ignored)
  | Some uid =>
      if String.eqb (accountId f) "" || String.eqb (amount f) ""
      then (db, Ignored)
      else
        let inserted :=
          match date f with
          | None => None
          | Some d =>
              Store.insert_transaction db uid fresh
                (Store.mkTransactionInsert uid (accountId f)
                   (or_null (categoryId f)) (parseFloat (amount f))
                   (to_transaction_type (type f)) (or_null (merchant f))
                   (or_null (description f)) d Schema.manual)
          end in
        match inserted with
        | None => (db, Failed)
        | Some db1 =>
            match Store.single (Store.accounts_by_id db1 uid (accountId f)) with
            | Some accountData =>
                let currentBalance := JS.Fin (Account.balance accountData) in
                let newBalance :=
                  match type f with
                  | income => JS.add currentBalance (parseFloat (amount f))
                  | expense => JS.sub currentBalance (parseFloat (amount f))
                  end in
                (Store.update_balance db1 uid (accountId f) newBalance,
                 Submitted)
            | None => (db1, Submitted)
            end
        end
  end.

End WithParseFloat.

End AddTransactionModal.

(** ** The vocabulary of the specification *)

Module Spec.

(** The arithmetic sum of a list of amounts. *)
Definition Qsum (l : list Q) : Q := fold_right Qplus 0 l.

(** [x] clamped to the interval from [lo] to [hi]. *)
Definition clamp (lo hi x : Q) : Q := Qmax lo (Qmin hi x).

(** Loan payoff progress as the specification words it:
    (principal - remaining) / principal * 100, clamped to 0..100. *)
Definition payoff_clamped (principal remaining : Q) : Q :=
  clamp 0 100 ((principal - remaining) / principal * 100).

(** The day of [now] as a calendar date. *)
Definition today (now : Clock.Date) : Schema.date :=
  Schema.mkDate (Clock.getFullYear now) (Clock.getMonth now + 1)
                (Clock.getDate now).

(** A date within the window from the first day of the current calendar
    month to now, both ends included. *)
Definition in_month_to_date (now : Clock.Date) (d : Schema.date) : bool :=
  Schema.date_geb d
    (Clock.first_of_month (Clock.getFullYear now) (Clock.getMonth now))
  && Schema.date_leb d (today now).

(** Monthly total of one direction as the specification words it: the sum of
    the amounts of the user's transactions of that direction dated within the
    window. *)
Definition monthly_total (ty : Schema.transaction_type) (uid : string)
  (now : Clock.Date) (txs : list Transaction.Row) : Q :=
  Qsum (map Transaction.amount
          (filter (fun t => String.eqb (Transaction.user_id t) uid
                            && Schema.transaction_type_eqb (Transaction.type t) ty
                            && in_month_to_date now (Transaction.transaction_date t))
                  txs)).

(** The sum of the amounts of the user's transactions of one direction dated
    on or after [start], with no later bound. *)
Definition monthly_total_since (ty : Schema.transaction_type) (uid : string)
  (start : Schema.date) (txs : list Transaction.Row) : Q :=
  Qsum (map Transaction.amount
          (filter (fun t => String.eqb (Transaction.user_id t) uid
                            && Schema.transaction_type_eqb (Transaction.type t) ty
                            && Schema.date_geb (Transaction.transaction_date t)
                                 start)
                  txs)).

(** The user's expense transactions dated on or after [start]. *)
Definition month_expenses (uid : string) (start : Schema.date)
  (txs : list Transaction.Row) : list Transaction.Row :=
  filter (fun t => String.eqb (Transaction.user_id t) uid
                   && Schema.transaction_type_eqb (Transaction.type t)
                        Schema.expense
                   && Schema.date_geb (Transaction.transaction_date t) start)
         txs.

Definition option_string_eqb (a b : option string) : bool :=
  match a, b with
  | Some x, Some y => String.eqb x y
  | None, None => true
  | _, _ => false
  end.

(** Spent amount of a budget as the specification words it: over the
    current-month expenses of its category when it has one, over all of them
    otherwise. *)
Definition budget_spent (uid : string) (start : Schema.date)
  (txs : list Transaction.Row) (b : Budget.Row) : Q :=
  match Budget.category_id b with
  | Some c =>
      Qsum (map Transaction.amount
              (filter (fun t => option_string_eqb (Transaction.category_id t)
                                  (Some c))
                      (month_expenses uid start txs)))
  | None => Qsum (map Transaction.amount (month_expenses uid start txs))
  end.

(** The month count of a date object: twelve per year plus the month. *)
Definition month_index (d : Clock.Date) : Z :=
  (Clock.getFullYear d * 12 + Clock.getMonth d)%Z.

(** The calendar-month difference between today and a date, as the
    specification words it: twelve per year plus the months. *)
Definition calendar_months_between (today : Clock.Date) (e : Schema.date)
  : Z :=
  ((Schema.year e - Clock.getFullYear today) * 12
   + (Schema.month e - 1 - Clock.getMonth today))%Z.

(** The date [n] calendar months after [d], on the same day of the month. *)
Definition add_months (d : Clock.Date) (n : Z) : Schema.date :=
  Schema.mkDate ((month_index d + n) / 12) ((month_index d + n) mod 12 + 1)
                (Clock.getDate d).

(** The alert the loop pushes for a selected budget row. *)
Definition alert_of_row (transactions : list Dashboard.AmountRow)
  (budget : Dashboard.BudgetRow) : Dashboard.BudgetAlert :=
  Dashboard.mkAlert (Dashboard.b_id budget) (Dashboard.b_name budget)
    (Dashboard.budgetSpent transactions budget)
    (JS.Fin (Dashboard.b_amount budget))
    (Dashboard.budgetPercentage transactions budget).

(** The budgets of [uid] that are active. *)
Definition is_active_budget_of (uid : string) (b : Budget.Row) : bool :=
  String.eqb (Budget.user_id b) uid && Bool.eqb (Budget.is_active b) true.

(** The rows a dashboard load of [uid] at [now] reads for the budget loop. *)
Definition loop_transactions (db : Store.Database) (uid : string)
  (now : Clock.Date) : list Dashboard.AmountRow :=
  map Dashboard.select_amount
    (Store.expenses_since db uid uid (Clock.startOfMonth now)).

(** The percentage the dashboard computes for budget [b]. *)
Definition computed_percentage (db : Store.Database) (uid : string)
  (now : Clock.Date) (b : Budget.Row) : JS.number :=
  Dashboard.budgetPercentage (loop_transactions db uid now)
    (Dashboard.select_budget b).

(** The alert the dashboard builds for budget [b]. *)
Definition alert_of (db : Store.Database) (uid : string) (now : Clock.Date)
  (b : Budget.Row) : Dashboard.BudgetAlert :=
  Dashboard.mkAlert (Budget.id b) (Budget.name b)
    (Dashboard.budgetSpent (loop_transactions db uid now)
       (Dashboard.select_budget b))
    (JS.Fin (Budget.amount b))
    (computed_percentage db uid now b).

(** An alert fired for [b]: it is among the alerts of the loaded state. *)
Definition fires (db : Store.Database) (uid : string) (now : Clock.Date)
  (st : Dashboard.State) (b : Budget.Row) : Prop :=
  In (alert_of db uid now b)
     (Dashboard.budgetAlerts
        (Dashboard.loadDashboardData db (Some uid) now st)).

(** The frame of a balance update on one account row: nothing but the
    balance may differ. *)
Definition same_but_balance (r r' : Account.Row) : Prop :=
  r' = Account.set_balance (Account.balance r') r.

End Spec.

(** ** Concrete rows for the scenarios *)

Module Sample.

Local Open Scope string_scope.

Definition account (i uid : string) (b : Q) (active : bool) : Account.Row :=
  Account.mkRow i uid "Savings" Schema.bank None None b "INR" "#10b981"
                "bank" active "{}" "2026-01-05" "2026-01-05".

Definition txn (i uid acc : string) (cat : option string) (a : Q)
  (ty : Schema.transaction_type) (d : Schema.date) : Transaction.Row :=
  Transaction.mkRow i uid acc cat a ty None None d Schema.manual.

Definition budget (i uid : string) (cat : option string) (lim : Q)
  (alert_at : Z) (active : bool) : Budget.Row :=
  Budget.mkRow i uid cat None "Monthly" lim Schema.monthly alert_at active.

Definition loan (p r : Q) (e : option Schema.date) : Loan.Row :=
  Loan.mkRow "l1" "Home loan" p r None None None
             (Schema.mkDate 2024 1 15) e None None.

(** Zones without daylight saving: UTC, Asia/Kolkata (UTC+05:30) and
    America/Bogota (UTC-05:00). *)
Definition utc : Clock.Zone := Clock.fixed 0.
Definition kolkata : Clock.Zone := Clock.fixed (-330).
Definition bogota : Clock.Zone := Clock.fixed 300.

(** The instant of the scenarios: 2 November 2026, in a given zone and, by
    default, in UTC. *)
Definition now_in (z : Clock.Zone) : Clock.Date := Clock.mkDate 2026 10 2 z.

Definition now : Clock.Date := now_in utc.

Definition nov (d : Z) : Schema.date := Schema.mkDate 2026 11 d.

Definition initial : Dashboard.State :=
  Dashboard.mkState
    (Dashboard.mkStats (JS.Fin 0) (JS.Fin 0) (JS.Fin 0) (JS.Fin 0)) [].

Definition food : Category.Row :=
  Category.mkRow "food" None "Food" Schema.expense true.

(** Scenario 1: one account with balance 1000. *)
Definition db_balance : Store.Database :=
  Store.mkDatabase [account "a1" "u1" 1000 true; account "a2" "u2" 70 true]
                   [food] [] [].

Definition expense_form : AddTransactionModal.Form :=
  AddTransactionModal.mkForm AddTransactionModal.expense "150" "a1" "food"
                             "" "" (Some (nov 2)).

(** A [parseFloat] that reads the one text the scenario types in. *)
Definition parse150 (s : string) : JS.number :=
  if String.eqb s "150" then JS.Fin 150 else JS.NaN.

(** Scenario 2: incomes of 5000 and 3000 and an expense of 2000 this month. *)
Definition db_month : Store.Database :=
  Store.mkDatabase
    [account "a1" "u1" 1000 true]
    [food]
    [txn "t1" "u1" "a1" None 5000 Schema.income (nov 1);
     txn "t2" "u1" "a1" None 3000 Schema.income (nov 2);
     txn "t3" "u1" "a1" (Some "food") 2000 Schema.expense (nov 2)]
    [].


(** Scenario 4: a budget of 1000 on the category food, threshold 80, and
    850 spent on food this month. *)
Definition db_food_budget : Store.Database :=
  Store.mkDatabase
    [account "a1" "u1" 1000 true]
    [food]
    [txn "t1" "u1" "a1" (Some "food") 850 Schema.expense (nov 1)]
    [budget "b1" "u1" (Some "food") 1000 80 true].

(** A budget of 1000 over all expenses, threshold 80, and 850 spent. *)
Definition db_all_budget : Store.Database :=
  Store.mkDatabase
    [account "a1" "u1" 1000 true]
    [food]
    [txn "t1" "u1" "a1" (Some "food") 850 Schema.expense (nov 1)]
    [budget "b2" "u1" None 1000 80 true].

(** A budget over all expenses with its own threshold 50, and 60 spent of
    a limit of 100. *)
Definition db_threshold : Store.Database :=
  Store.mkDatabase
    [account "a1" "u1" 1000 true]
    []
    [txn "t1" "u1" "a1" None 60 Schema.expense (nov 1)]
    [budget "b1" "u1" None 100 50 true].

End Sample.

(** ** Dashboard.tsx: what the page renders from the loaded state *)

Module DashboardView.

(** [stats.monthlyExpense > stats.monthlyIncome &&]: the spending alert. *)
Definition showSpendingAlert (s : Dashboard.DashboardStats) : bool :=
  JS.gt (Dashboard.monthlyExpense s) (Dashboard.monthlyIncome s).

(** [stats.savingsRate >= 20 &&]: the card that congratulates. *)
Definition showGreatJob (s : Dashboard.DashboardStats) : bool :=
  JS.ge (Dashboard.savingsRate s) (JS.Fin 20).

(** [stats.monthlyIncome - stats.monthlyExpense]: net cash flow this month. *)
Definition netCashFlow (s : Dashboard.DashboardStats) : JS.number :=
  JS.sub (Dashboard.monthlyIncome s) (Dashboard.monthlyExpense s).

(** [budgetAlerts.length > 0 &&]: the alert panel. *)
Definition showBudgetAlerts (st : Dashboard.State) : bool :=
  match Dashboard.budgetAlerts st with
  | [] => false
  | _ :: _ => true
  end.

(** [Math.ceil(a)] *)
Definition ceil (a : JS.number) : JS.number :=
  match a with
  | JS.Fin q => JS.Fin (inject_Z (Qceiling q))
  | _ => a
  end.

(** [Math.ceil((new Date(sub.next_billing_date).getTime()
      - new Date().getTime()) / (1000 * 60 * 60 * 24))], on the two
    [getTime()] values in milliseconds. *)
Definition daysUntil (next now : Z) : JS.number :=
  ceil (JS.div (JS.sub (JS.Fin (inject_Z next)) (JS.Fin (inject_Z now)))
               (JS.mul (JS.mul (JS.mul (JS.Fin 1000) (JS.Fin 60)) (JS.Fin 60))
                       (JS.Fin 24))).

End DashboardView.

(** ** Loans.tsx: the text beside the months remaining *)

Module LoansView.

Inductive months_text : Type :=
| Completed
| MonthsLeft (n : Z).

(** [monthsRemaining !== null && (monthsRemaining === 0 ? 'Completed'
      : `${monthsRemaining} months left`)] *)
Definition monthsText (c : Loans.Card) : option months_text :=
  match Loans.monthsRemaining c with
  | None => None
  | Some n => Some (if Z.eqb n 0 then Completed else MonthsLeft n)
  end.

End LoansView.

(** ** Transactions.tsx *)

Module Transactions.

(** The view model a loaded transaction is shaped into. *)
Record Transaction : Type := mkTransaction {
  id : string;
  amount : Q;
  type : Schema.transaction_type;
  merchant : option string;
  description : option string;
  transaction_date : Schema.date;
  category_name : string;
  category_icon : string;
  account_name : string
}.

(** The choices of the type selector. *)
Inductive filter_type : Type := all | income | expense.

(** [s.includes(sub)]: [sub] occurs in [s] at some position. *)
Fixpoint includes (s sub : string) : bool :=
  String.prefix sub s
  || match s with
     | EmptyString => false
     | String _ rest => includes rest sub
     end.

(** [filterType === 'all' || t.type === filterType] *)
Definition matchesFilter (filterType : filter_type) (t : Transaction) : bool :=
  match filterType with
  | all => true
  | income => Schema.transaction_type_eqb (type t) Schema.income
  | expense => Schema.transaction_type_eqb (type t) Schema.expense
  end.

Section WithToLowerCase.

(** The standard method [toLowerCase], left abstract. *)
Variable toLowerCase : string -> string.

(** [v?.toLowerCase().includes(term.toLowerCase())], as the truth value the
    filter sees: a missing field gives [undefined]. *)
Definition fieldMatches (v : option string) (searchTerm : string) : bool :=
  match v with
  | Some s => includes (toLowerCase s) (toLowerCase searchTerm)
  | None => false
  end.

Definition matchesSearch (searchTerm : string) (t : Transaction) : bool :=
  fieldMatches (merchant t) searchTerm
  || includes (toLowerCase (category_name t)) (toLowerCase searchTerm)
  || fieldMatches (description t) searchTerm.

(** [transactions.filter(t => matchesSearch && matchesFilter)] *)
Definition filteredTransactions (searchTerm : string)
  (filterType : filter_type) (transactions : list Transaction)
  : list Transaction :=
  filter (fun t => matchesSearch searchTerm t && matchesFilter filterType t)
         transactions.

(** [filteredTransactions.filter(t => t.type === 'income')
      .reduce((sum, t) => sum + Number(t.amount), 0)] *)
Definition totalIncome (searchTerm : string) (filterType : filter_type)
  (transactions : list Transaction) : JS.number :=
  JS.reduce_sum amount
    (filter (fun t => Schema.transaction_type_eqb (type t) Schema.income)
            (filteredTransactions searchTerm filterType transactions)).

Definition totalExpense (searchTerm : string) (filterType : filter_type)
  (transactions : list Transaction) : JS.number :=
  JS.reduce_sum amount
    (filter (fun t => Schema.transaction_type_eqb (type t) Schema.expense)
            (filteredTransactions searchTerm filterType transactions)).

(** [totalIncome - totalExpense], the net card. *)
Definition net (searchTerm : string) (filterType : filter_type)
  (transactions : list Transaction) : JS.number :=
  JS.sub (totalIncome searchTerm filterType transactions)
         (totalExpense searchTerm filterType transactions).

End WithToLowerCase.

End Transactions.

(** ** App.tsx and Layout.tsx: the pages and the entries that lead to them *)

Module App.

Local Open Scope string_scope.

Inductive page : Type :=
| Dashboard | Accounts | Transactions | Budgets | Goals | Reports
| Subscriptions | Loans | Investments | Settings.

(** [renderView]: the [switch] over [currentView]. *)
Definition renderView (currentView : string) : page :=
  if String.eqb currentView "dashboard" then Dashboard
  else if String.eqb currentView "accounts" then Accounts
  else if String.eqb currentView "transactions" then Transactions
  else if String.eqb currentView "budgets" then Budgets
  else if String.eqb currentView "goals" then Goals
  else if String.eqb currentView "reports" then Reports
  else if String.eqb currentView "subscriptions" then Subscriptions
  else if String.eqb currentView "loans" then Loans
  else if String.eqb currentView "investments" then Investments
  else if String.eqb currentView "settings" then Settings
  else Dashboard.

(** The [id]s of [navigation] in Layout.tsx, in order. *)
Definition navigation : list string :=
  ["dashboard"; "accounts"; "transactions"; "budgets"; "goals"; "reports";
   "subscriptions"; "loans"; "investments"; "settings"].

(** [currentView === 'dashboard' || currentView === 'transactions']: whether
    the page is reloaded after a transaction is added. *)
Definition reloadsAfterAdd (currentView : string) : bool :=
  String.eqb currentView "dashboard" || String.eqb currentView "transactions".

End App.

(** ** Accounts.tsx: the dialog that adds an account *)

Module AddAccountModal.

Local Open Scope string_scope.

Inductive form_type : Type := cash | bank | credit_card | upi.

Definition form_type_eqb (a b : form_type) : bool :=
  match a, b with
  | cash, cash | bank, bank | credit_card, credit_card | upi, upi => true
  | _, _ => false
  end.

Definition to_account_type (t : form_type) : Schema.account_type :=
  match t with
  | cash => Schema.cash
  | bank => Schema.bank
  | credit_card => Schema.credit_card
  | upi => Schema.upi
  end.

Record AccountTypeChoice : Type := mkChoice {
  value : form_type;
  label : string;
  icon : string;
  color : string
}.

Definition accountTypes : list AccountTypeChoice :=
  [mkChoice cash "Cash" "💵" "#10b981";
   mkChoice bank "Bank Account" "🏦" "#3b82f6";
   mkChoice credit_card "Credit Card" "💳" "#f59e0b";
   mkChoice upi "UPI" "📱" "#8b5cf6"].

Record Form : Type := mkForm {
  name : string;
  type : form_type;
  provider : string;
  balance : string
}.

Inductive outcome : Type :=
| Ignored     (* no session: the handler returned *)
| Failed      (* the insert was refused: the alert is shown *)
| Submitted.  (* onSuccess, onClose *)

(** [n || 0]: NaN and zero are falsy. *)
Definition or_zero (n : JS.number) : JS.number :=
  match n with
  | JS.NaN => JS.Fin 0
  | JS.Fin q => if Qeq_bool q 0 then JS.Fin 0 else n
  | _ => n
  end.

(** [s || fallback] on strings. *)
Definition or_else (s fallback : string) : string :=
  if String.eqb s "" then fallback else s.

(** The fields of [from('accounts').insert({..})]. *)
Record AccountInsert : Type := mkAccountInsert {
  ins_user_id : string;
  ins_name : string;
  ins_type : Schema.account_type;
  ins_provider : option string;
  ins_balance : JS.number;
  ins_icon : string;
  ins_color : string
}.

(** The insert issued by [uid]: [fresh] is the generated key and [stamp] the
    value of [now()]; the other columns take their defaults.  The policy
    [WITH CHECK (user_id = auth.uid())] refuses a row of another user, and a
    balance the column cannot store is an error; the session user has a
    profile. *)
Definition insert_account (db : Store.Database) (uid fresh stamp : string)
  (a : AccountInsert) : option Store.Database :=
  match Numeric.write_nullable (ins_balance a) with
  | Some b =>
      if String.eqb (ins_user_id a) uid
      then Some (Store.mkDatabase
                   (Store.accounts db ++
                      [Account.mkRow fresh (ins_user_id a) (ins_name a)
                         (ins_type a) (ins_provider a) None b "INR"
                         (ins_color a) (ins_icon a) true "{}" stamp stamp])
                   (Store.categories db) (Store.transactions db)
                   (Store.budgets db))
      else None
  | None => None
  end.

Section WithParseFloat.

Variable parseFloat : string -> JS.number.

(** The payload [handleSubmit] builds for the session user [uid]. *)
Definition payload (uid : string) (f : Form) : AccountInsert :=
  let selectedType :=
    find (fun t => form_type_eqb (value t) (type f)) accountTypes in
  mkAccountInsert uid (name f) (to_account_type (type f))
    (AddTransactionModal.or_null (provider f))
    (or_zero (parseFloat (balance f)))
    (or_else (match selectedType with Some t => icon t | None => "" end) "💳")
    (or_else (match selectedType with Some t => color t | None => "" end)
             "#10b981").

(** [handleSubmit] of the dialog. *)
Definition handleSubmit (db : Store.Database) (user : option string)
  (fresh stamp : string) (f : Form) : Store.Database * outcome :=
  match user with
  | None => (db, Ignored)
  | Some uid =>
      match insert_account db uid fresh stamp (payload uid f) with
      | Some db1 => (db1, Submitted)
      | None => (db, Failed)
      end
  end.

End WithParseFloat.

End AddAccountModal.

(** ** Accounts.tsx: the label of an account type *)

Module AccountsView.

Local Open Scope string_scope.

(** [toUpperCase] on a text in ASCII: the letters a to z are raised, every
    other character is kept. *)
Definition upper_ascii (c : ascii) : ascii :=
  let n := nat_of_ascii c in
  if (Nat.leb 97 n && Nat.leb n 122)%bool then ascii_of_nat (n - 32) else c.

Fixpoint toUpperCase (s : string) : string :=
  match s with
  | EmptyString => EmptyString
  | String c rest => String (upper_ascii c) (toUpperCase rest)
  end.

(** [s.split(sep)] for a separator of one character. *)
Fixpoint split (sep : ascii) (s : string) : list string :=
  match s with
  | EmptyString => [EmptyString]
  | String c rest =>
      if Ascii.eqb c sep then EmptyString :: split sep rest
      else match split sep rest with
           | w :: ws => String c w :: ws
           | [] => [String c EmptyString]
           end
  end.

(** [word.charAt(0)] and [word.slice(1)] *)
Definition charAt0 (word : string) : string :=
  match word with
  | EmptyString => EmptyString
  | String c _ => String c EmptyString
  end.

Definition slice1 (word : string) : string :=
  match word with
  | EmptyString => EmptyString
  | String _ rest => rest
  end.

(** [type.split('_').map((word) => word.charAt(0).toUpperCase()
      + word.slice(1)).join(' ')] *)
Definition getAccountTypeLabel (type : string) : string :=
  String.concat " "
    (map (fun word => toUpperCase (charAt0 word) ++ slice1 word)
         (split "_" type)).

(** The same text read in one pass: an underscore becomes a space, and the
    character at the start of the text or after an underscore is raised. *)
Fixpoint titled (start : bool) (s : string) : string :=
  match s with
  | EmptyString => EmptyString
  | String c rest =>
      if Ascii.eqb c "_" then String " " (titled true rest)
      else String (if start then upper_ascii c else c) (titled false rest)
  end.

(** A text in ASCII. *)
Definition is_ascii_text (s : string) : Prop :=
  Forall (fun c => (nat_of_ascii c < 128)%nat) (list_ascii_of_string s).

(** The text a stored account type has, as the CHECK constraint lists them. *)
Definition type_text (t : Schema.account_type) : string :=
  match t with
  | Schema.cash => "cash"
  | Schema.bank => "bank"
  | Schema.credit_card => "credit_card"
  | Schema.upi => "upi"
  | Schema.investment => "investment"
  | Schema.loan => "loan"
  | Schema.other => "other"
  end.

End AccountsView.

(** ** Further rows for the scenarios *)

Module Scenario.

Local Open Scope string_scope.

(** ASCII letters to lower case, other characters unchanged: an instance of
    [toLowerCase] for texts in ASCII. *)
Definition lower_ascii (c : Ascii.ascii) : Ascii.ascii :=
  let n := Ascii.nat_of_ascii c in
  if (Nat.leb 65 n && Nat.leb n 90)%bool
  then Ascii.ascii_of_nat (n + 32) else c.

Fixpoint lower (s : string) : string :=
  match s with
  | EmptyString => EmptyString
  | String c rest => String (lower_ascii c) (lower rest)
  end.

Definition shown (i : string) (a : Q) (ty : Schema.transaction_type)
  (m : option string) (cat : string) : Transactions.Transaction :=
  Transactions.mkTransaction i a ty m None (Sample.nov 1) cat "📦" "Savings".

Definition page_rows : list Transactions.Transaction :=
  [shown "t1" 5000 Schema.income (Some "Acme Corp") "Salary";
   shown "t2" 2000 Schema.expense None "Groceries";
   shown "t3" 300 Schema.transfer None "Uncategorized"].

Definition income_form : AddTransactionModal.Form :=
  AddTransactionModal.mkForm AddTransactionModal.income "150" "a1" "food"
                             "" "" (Some (Sample.nov 2)).


(** The store of scenario 1 without the account of the other user. *)
Definition db_balance_alone : Store.Database :=
  Store.mkDatabase [Sample.account "a1" "u1" 1000 true] [Sample.food] [] [].

(** A transfer between accounts, dated this month. *)
Definition a_transfer : Transaction.Row :=
  Sample.txn "t7" "u1" "a1" None 400 Schema.transfer (Sample.nov 2).

(** The store [db] with one more row in its transactions. *)
Definition with_transaction (db : Store.Database) (t : Transaction.Row)
  : Store.Database :=
  Store.mkDatabase (Store.accounts db) (Store.categories db)
                   (Store.transactions db ++ [t]) (Store.budgets db).

End Scenario.

(** ** The double-precision reading of the total balance *)

Module Double.

(** IEEE-754 binary64, on the specification of the Standard Library. *)
Definition prec : Z := 53.
Definition emax : Z := 1024.

Definition number : Type := SpecFloat.spec_float.

Definition zero : number := SpecFloat.S754_zero false.

(** [a + b] and [a / b], correctly rounded to nearest, ties to even. *)
Definition add (a b : number) : number := SpecFloat.SFadd prec emax a b.

Definition div (a b : number) : number := SpecFloat.SFdiv prec emax a b.

(** The double of a whole number. *)
Definition of_Z (n : Z) : number :=
  SpecFloat.binary_normalize prec emax n 0 false.

(** [Number(x)] for a value of a [numeric(15, 2)] column: it arrives as a
    decimal with two places, and the double nearest to it is the correctly
    rounded quotient of its cents (fewer than sixteen digits, so a double)
    by 100. *)
Definition Number (q : Q) : number :=
  div (of_Z (Numeric.round_half_away (q * 100))) (of_Z 100).

(** [accounts.reduce((sum, acc) => sum + Number(acc.balance), 0)] *)
Definition totalBalance (accounts : list Account.Row) : number :=
  fold_left (fun sum acc => add sum (Number (Account.balance acc)))
            accounts zero.


End Double.

(** Three accounts with balances 0.10, 0.20 and 0.30. *)
Module Tenths.

Local Open Scope string_scope.


Definition db (accs : list Account.Row) : Store.Database :=
  Store.mkDatabase accs [] [] [].

End Tenths.

(** An account at the top of the range of its balance column, and the form
    that records an income of one cent against it. *)
Module Edge.

Local Open Scope string_scope.

Definition top : Q := 999999999999999 # 100.

Definition db : Store.Database :=
  Store.mkDatabase [Sample.account "a1" "u1" top true] [Sample.food] [] [].

Definition income_form : AddTransactionModal.Form :=
  AddTransactionModal.mkForm AddTransactionModal.income "0.01" "a1" "" "" ""
                             (Some (Sample.nov 2)).

Definition parse_cent (s : string) : JS.number :=
  if String.eqb s "0.01" then JS.Fin (1 # 100) else JS.NaN.

End Edge.

(** ** Numbers: finite sums *)

Lemma eqn_refl (a : JS.number) : a =n= a.
Proof. destruct a; simpl; auto. reflexivity. Qed.

Lemma eqn_sym (a b : JS.number) : a =n= b -> b =n= a.
Proof. destruct a, b; simpl; auto. intros H; symmetry; exact H. Qed.

Lemma eqn_trans (a b c : JS.number) : a =n= b -> b =n= c -> a =n= c.
Proof.
  destruct a, b, c; simpl; auto; try contradiction.
  intros H1 H2; rewrite H1; exact H2.
Qed.

Lemma Qlt_bool_iff (a b : Q) : JS.Qlt_bool a b = true <-> a < b.
Proof.
  unfold JS.Qlt_bool. rewrite negb_true_iff.
  split; intros H.
  - apply Qnot_le_lt. intros Hle. apply Qle_bool_iff in Hle. congruence.
  - apply not_true_is_false. intros Hle. apply Qle_bool_iff in Hle.
    apply (Qlt_not_le _ _ H Hle).
Qed.

Lemma Qlt_bool_false_iff (a b : Q) : JS.Qlt_bool a b = false <-> b <= a.
Proof.
  unfold JS.Qlt_bool. rewrite negb_false_iff. apply Qle_bool_iff.
Qed.

Lemma Qle_bool_false_iff (a b : Q) : Qle_bool a b = false <-> b < a.
Proof.
  rewrite <- Qlt_bool_iff. unfold JS.Qlt_bool.
  destruct (Qle_bool a b); simpl; split; congruence.
Qed.

Lemma fold_add_fin {A : Type} (f : A -> Q) (xs : list A) (a : Q) :
  fold_left (fun sum x => JS.add sum (JS.Fin (f x))) xs (JS.Fin a)
  = JS.Fin (fold_left (fun s x => s + f x) xs a).
Proof.
  revert a. induction xs as [|x xs IH]; intros a; simpl.
  - reflexivity.
  - apply IH.
Qed.

Lemma fold_plus_sum {A : Type} (f : A -> Q) (xs : list A) (a : Q) :
  fold_left (fun s x => s + f x) xs a == a + Spec.Qsum (map f xs).
Proof.
  revert a. induction xs as [|x xs IH]; intros a; simpl.
  - lra.
  - rewrite IH. lra.
Qed.

Lemma reduce_sum_finite {A : Type} (f : A -> Q) (xs : list A) :
  exists q, JS.reduce_sum f xs = JS.Fin q /\ q == Spec.Qsum (map f xs).
Proof.
  unfold JS.reduce_sum. rewrite fold_add_fin.
  eexists; split; [reflexivity|]. rewrite fold_plus_sum. lra.
Qed.

Lemma reduce_sum_eqn {A : Type} (f : A -> Q) (xs : list A) :
  JS.reduce_sum f xs =n= JS.Fin (Spec.Qsum (map f xs)).
Proof.
  destruct (reduce_sum_finite f xs) as (q & -> & Hq). exact Hq.
Qed.

Lemma reduce_sum_map {A B : Type} (g : A -> B) (f : B -> Q) (xs : list A) :
  JS.reduce_sum f (map g xs) = JS.reduce_sum (fun x => f (g x)) xs.
Proof.
  unfold JS.reduce_sum. generalize (JS.Fin 0).
  induction xs as [|x xs IH]; intros n; simpl; [reflexivity | apply IH].
Qed.

Lemma Qsum_nonneg (l : list Q) : Forall (fun q => 0 <= q) l -> 0 <= Spec.Qsum l.
Proof.
  induction 1 as [|q l Hq _ IH]; simpl; lra.
Qed.

(** ** Total balance *)

Lemma dashboard_total_balance (db : Store.Database) (uid : string)
  (now : Clock.Date) (st : Dashboard.State) :
  Dashboard.totalBalance
    (Dashboard.stats (Dashboard.loadDashboardData db (Some uid) now st))
  = Accounts.totalBalance (Store.active_accounts db uid uid).
Proof.
  simpl. rewrite reduce_sum_map. reflexivity.
Qed.






(** ** Monthly totals and savings rate *)

Lemma ratio_bounds (i e : Q) :
  0 < i -> 0 <= e ->
  (i - e) / i <= 1 /\ ((i - e) / i <= 0 <-> i <= e).
Proof.
  intros Hi He. split; [|split].
  - apply Qle_shift_div_r; [exact Hi | lra].
  - intros Hd.
    assert (Hm : (i - e) / i * i == i - e).
    { field. intros Hz. rewrite Hz in Hi. lra. }
    assert (Hle : (i - e) / i * i <= 0 * i).
    { apply Qmult_le_compat_r; [exact Hd | lra]. }
    lra.
  - intros Hie. apply Qle_shift_div_r; [exact Hi | lra].
Qed.


Lemma sum_of_type_finite (ty : Schema.transaction_type)
  (rows : list Transaction.Row) :
  exists q,
    Dashboard.sum_of_type ty (map Dashboard.select_amount_type rows)
    = JS.Fin q
    /\ q == Spec.Qsum
              (map Transaction.amount
                 (filter (fun t => Schema.transaction_type_eqb
                                     (Transaction.type t) ty) rows)).
Proof.
  unfold Dashboard.sum_of_type.
  assert (Hf : filter (fun t => Schema.transaction_type_eqb
                                  (Dashboard.at_type t) ty)
                 (map Dashboard.select_amount_type rows)
               = map Dashboard.select_amount_type
                   (filter (fun t => Schema.transaction_type_eqb
                                       (Transaction.type t) ty) rows)).
  { induction rows as [|t rows IH]; simpl; [reflexivity|].
    destruct (Schema.transaction_type_eqb (Transaction.type t) ty); simpl;
      rewrite IH; reflexivity. }
  rewrite Hf, reduce_sum_map. simpl.
  apply reduce_sum_finite.
Qed.


Lemma filter_filter_and {A : Type} (p q : A -> bool) (l : list A) :
  filter p (filter q l) = filter (fun x => q x && p x) l.
Proof.
  induction l as [|x l IH]; simpl; [reflexivity|].
  destruct (q x); simpl; [destruct (p x)|]; rewrite IH; reflexivity.
Qed.



(** East of UTC the request starts a day early: in Asia/Kolkata on
    2 November 2026 it asks for the transactions from 31 October on. *)
Lemma startOfMonth_east_of_utc :
  Clock.startOfMonth (Sample.now_in Sample.kolkata) = Schema.mkDate 2026 10 31
  /\ Clock.startOfMonth (Sample.now_in Sample.bogota) = Schema.mkDate 2026 11 1
  /\ Clock.startOfMonth Sample.now = Schema.mkDate 2026 11 1.
Proof. repeat split. Qed.






Lemma monthly_total_without_future_dates (ty : Schema.transaction_type)
  (uid : string) (now : Clock.Date) (txs : list Transaction.Row) :
  Forall (fun t => Schema.date_leb (Transaction.transaction_date t)
                     (Spec.today now) = true) txs ->
  Spec.monthly_total_since ty uid
    (Clock.first_of_month (Clock.getFullYear now) (Clock.getMonth now)) txs
  == Spec.monthly_total ty uid now txs.
Proof.
  intros H. unfold Spec.monthly_total_since, Spec.monthly_total.
  erewrite filter_ext_in; [reflexivity|].
  intros t Ht. rewrite Forall_forall in H.
  unfold Spec.in_month_to_date. rewrite (H t Ht), andb_true_r. reflexivity.
Qed.

(** ** Budget alerts *)

Lemma budget_loop_from (transactions : list Dashboard.AmountRow)
  (budgets : list Dashboard.BudgetRow) (acc : list Dashboard.BudgetAlert) :
  fold_left (Dashboard.budgetStep transactions) budgets acc
  = acc ++ map (Spec.alert_of_row transactions)
             (filter (fun b => JS.ge (Dashboard.budgetPercentage transactions b)
                                     (JS.Fin 80))
                     budgets).
Proof.
  revert acc. induction budgets as [|b budgets IH]; intros acc; simpl.
  - rewrite app_nil_r. reflexivity.
  - rewrite IH. unfold Dashboard.budgetStep.
    destruct (JS.ge (Dashboard.budgetPercentage transactions b) (JS.Fin 80));
      simpl; [rewrite <- app_assoc|]; reflexivity.
Qed.

Lemma computeBudgetAlerts_filter (transactions : list Dashboard.AmountRow)
  (budgets : list Dashboard.BudgetRow) :
  Dashboard.computeBudgetAlerts transactions budgets
  = map (Spec.alert_of_row transactions)
        (filter (fun b => JS.ge (Dashboard.budgetPercentage transactions b)
                                (JS.Fin 80))
                budgets).
Proof.
  unfold Dashboard.computeBudgetAlerts. rewrite budget_loop_from. reflexivity.
Qed.

Lemma active_budgets_iff (db : Store.Database) (uid : string) (b : Budget.Row) :
  In b (Store.active_budgets db uid uid)
  <-> In b (Store.budgets db) /\ Spec.is_active_budget_of uid b = true.
Proof.
  unfold Store.active_budgets, Store.budget_policy, Spec.is_active_budget_of.
  rewrite filter_In.
  destruct (String.eqb (Budget.user_id b) uid), (Budget.is_active b); simpl;
    intuition congruence.
Qed.

Lemma dashboard_alerts_iff (db : Store.Database) (uid : string)
  (now : Clock.Date) (st : Dashboard.State) (a : Dashboard.BudgetAlert) :
  In a (Dashboard.budgetAlerts
          (Dashboard.loadDashboardData db (Some uid) now st))
  <-> exists b,
        In b (Store.budgets db)
        /\ Spec.is_active_budget_of uid b = true
        /\ JS.ge (Spec.computed_percentage db uid now b) (JS.Fin 80) = true
        /\ a = Spec.alert_of db uid now b.
Proof.
  simpl. rewrite computeBudgetAlerts_filter, in_map_iff. split.
  - intros (row & <- & Hrow). apply filter_In in Hrow.
    destruct Hrow as [Hin Hge]. apply in_map_iff in Hin.
    destruct Hin as (b & <- & Hb). apply active_budgets_iff in Hb.
    exists b. repeat split; try apply Hb. exact Hge.
  - intros (b & Hin & Hact & Hge & ->).
    exists (Dashboard.select_budget b). split; [reflexivity|].
    apply filter_In. split; [|exact Hge].
    apply in_map, active_budgets_iff. split; assumption.
Qed.

(** C1, as stated, fails: a budget with its own threshold 50 and 60 spent of
    a limit of 100 has a computed percentage of 60, at least its threshold,
    and yet no alert is produced for it. *)
Lemma alert_ignores_budget_threshold :
  let b := Sample.budget "b1" "u1" None 100 50 true in
  In b (Store.budgets Sample.db_threshold)
  /\ Spec.is_active_budget_of "u1" b = true
  /\ Spec.computed_percentage Sample.db_threshold "u1" Sample.now b
     =n= JS.Fin 60
  /\ JS.ge (Spec.computed_percentage Sample.db_threshold "u1" Sample.now b)
           (JS.Fin (inject_Z (Budget.alert_at_percentage b))) = true
  /\ Dashboard.budgetAlerts
       (Dashboard.loadDashboardData Sample.db_threshold (Some "u1"%string)
                                    Sample.now Sample.initial) = []
  /\ ~ Spec.fires Sample.db_threshold "u1" Sample.now Sample.initial b.
Proof.
  cbv zeta. split; [left; reflexivity|].
  split; [reflexivity|].
  split; [vm_compute; reflexivity|].
  split; [vm_compute; reflexivity|].
  assert (H : Dashboard.budgetAlerts
       (Dashboard.loadDashboardData Sample.db_threshold (Some "u1"%string)
                                    Sample.now Sample.initial) = []).
  { vm_compute. reflexivity. }
  split; [exact H|].
  unfold Spec.fires. rewrite H. intros [].
Qed.

(** C1, amended. For every active budget of the user the dashboard alert
    fires if and only if the computed spend percentage is at least 80, the
    fixed threshold of the dashboard; every alert produced belongs to an
    active budget of the user, so none is produced for a budget whose active
    flag is false. *)
Theorem alert_iff_percentage_at_least_80 (db : Store.Database) (uid : string)
  (now : Clock.Date) (st : Dashboard.State) (b : Budget.Row) :
  In b (Store.budgets db) ->
  (Spec.is_active_budget_of uid b = true ->
     (Spec.fires db uid now st b
      <-> JS.ge (Spec.computed_percentage db uid now b) (JS.Fin 80) = true))
  /\ (forall a,
        In a (Dashboard.budgetAlerts
                (Dashboard.loadDashboardData db (Some uid) now st)) ->
        exists b',
          In b' (Store.budgets db)
          /\ Budget.user_id b' = uid
          /\ Budget.is_active b' = true
          /\ a = Spec.alert_of db uid now b').
Proof.
  intros Hin. split.
  - intros Hact. unfold Spec.fires. rewrite dashboard_alerts_iff. split.
    + intros (b' & _ & _ & Hge & Heq).
      assert (Hp : Spec.computed_percentage db uid now b
                   = Spec.computed_percentage db uid now b').
      { change (Dashboard.percentage (Spec.alert_of db uid now b)
                = Dashboard.percentage (Spec.alert_of db uid now b')).
        rewrite Heq. reflexivity. }
      rewrite Hp. exact Hge.
    + intros Hge. exists b. repeat split; assumption.
  - intros a Ha. apply dashboard_alerts_iff in Ha.
    destruct Ha as (b' & Hb' & Hact & _ & Heq).
    exists b'. unfold Spec.is_active_budget_of in Hact.
    apply andb_true_iff in Hact. destruct Hact as [Hu Ha].
    apply String.eqb_eq in Hu. apply Bool.eqb_prop in Ha.
    repeat split; assumption.
Qed.

Lemma alert_iff_percentage_at_least_80_witness :
  Spec.fires Sample.db_all_budget "u1" Sample.now Sample.initial
             (Sample.budget "b2" "u1" None 1000 80 true).
Proof.
  apply (proj1 (alert_iff_percentage_at_least_80 Sample.db_all_budget "u1"
                  Sample.now Sample.initial
                  (Sample.budget "b2" "u1" None 1000 80 true)
                  (or_introl eq_refl))).
  - reflexivity.
  - vm_compute. reflexivity.
Defined.

Lemma budgetSpent_with_category (transactions : list Dashboard.AmountRow)
  (budget : Dashboard.BudgetRow) (c : string) :
  Dashboard.b_category_id budget = Some c -> c <> ""%string ->
  Dashboard.budgetSpent transactions budget = JS.Fin 0.
Proof.
  intros Hc Hne. unfold Dashboard.budgetSpent. rewrite Hc. simpl.
  apply String.eqb_neq in Hne. rewrite Hne. simpl.
  induction transactions as [|t ts IH]; [reflexivity | exact IH].
Qed.

Lemma budgetSpent_without_category (db : Store.Database) (uid : string)
  (now : Clock.Date) (b : Budget.Row) :
  Budget.category_id b = None ->
  Dashboard.budgetSpent (Spec.loop_transactions db uid now)
                        (Dashboard.select_budget b)
  =n= JS.Fin (Spec.budget_spent uid (Clock.startOfMonth now)
                (Store.transactions db) b).
Proof.
  intros Hc. unfold Dashboard.budgetSpent, Spec.budget_spent. simpl.
  rewrite Hc. simpl. unfold Spec.loop_transactions.
  rewrite reduce_sum_map. simpl.
  eapply eqn_trans; [apply reduce_sum_eqn|]. simpl.
  unfold Store.expenses_since, Spec.month_expenses.
  erewrite filter_ext; [reflexivity|].
  intros t. unfold Store.transaction_policy. simpl.
  destruct (String.eqb (Transaction.user_id t) uid); reflexivity.
Qed.

Lemma budgetPercentage_formula (transactions : list Dashboard.AmountRow)
  (budget : Dashboard.BudgetRow) :
  ~ Dashboard.b_amount budget == 0 ->
  exists spent,
    Dashboard.budgetSpent transactions budget = JS.Fin spent
    /\ Dashboard.budgetPercentage transactions budget
       = JS.Fin (spent / Dashboard.b_amount budget * 100).
Proof.
  intros Hnz. unfold Dashboard.budgetPercentage, Dashboard.budgetSpent.
  assert (Hz : Qeq_bool (Dashboard.b_amount budget) 0 = false).
  { apply not_true_is_false. intros H. apply Qeq_bool_iff in H. tauto. }
  destruct (JS.truthy _);
    match goal with
    | |- context [JS.reduce_sum ?f ?l] =>
        destruct (reduce_sum_finite f l) as (q & -> & _)
    end; exists q; simpl; rewrite Hz; split; reflexivity.
Qed.

(** C2 at the failing input. A budget of 1000 on the category food with 850
    spent on food this month: the specification's spent amount is 850, the
    dashboard computes 0, a percentage of 0 and no alert, because the rows of
    [select('amount')] carry no [category_id] to compare with. *)
Theorem category_budget_spent_is_zero :
  let b := Sample.budget "b1" "u1" (Some "food"%string) 1000 80 true in
  let start := Clock.first_of_month 2026 10 in
  Spec.budget_spent "u1" start (Store.transactions Sample.db_food_budget) b
    == 850
  /\ Dashboard.budgetSpent
       (Spec.loop_transactions Sample.db_food_budget "u1" Sample.now)
       (Dashboard.select_budget b) = JS.Fin 0
  /\ Spec.computed_percentage Sample.db_food_budget "u1" Sample.now b
     =n= JS.Fin 0
  /\ Dashboard.budgetAlerts
       (Dashboard.loadDashboardData Sample.db_food_budget (Some "u1"%string)
                                    Sample.now Sample.initial) = [].
Proof.
  cbv zeta. split; [vm_compute; reflexivity|].
  split; [reflexivity|].
  split; vm_compute; reflexivity.
Qed.

(** ** Loans: payoff progress and months remaining *)

Lemma loanProgress_finite (loan : Loan.Row) :
  ~ Loan.principal_amount loan == 0 ->
  Loans.loanProgress loan
  = JS.Fin ((Loan.principal_amount loan - Loan.remaining_amount loan)
            / Loan.principal_amount loan * 100).
Proof.
  intros Hnz. unfold Loans.loanProgress. simpl.
  assert (Hz : Qeq_bool (Loan.principal_amount loan) 0 = false).
  { apply not_true_is_false. intros H. apply Qeq_bool_iff in H. tauto. }
  rewrite Hz. reflexivity.
Qed.

Lemma min_with_100 (x : Q) :
  JS.min (JS.Fin x) (JS.Fin 100) =n= JS.Fin (Qmin x 100).
Proof.
  simpl. destruct (Qle_bool x 100) eqn:H; simpl.
  - apply Qle_bool_iff in H. rewrite Q.min_l; [reflexivity | exact H].
  - apply Qle_bool_false_iff in H. rewrite Q.min_r; [reflexivity | lra].
Qed.

Lemma payoff_in_range (p r : Q) :
  0 < p -> 0 <= r -> r <= p ->
  0 <= (p - r) / p * 100 /\ (p - r) / p * 100 <= 100.
Proof.
  intros Hp Hr Hrp.
  destruct (ratio_bounds p r Hp Hr) as [Hle1 _].
  assert (H0 : 0 <= (p - r) / p).
  { apply Qle_shift_div_l; [exact Hp | lra]. }
  lra.
Qed.

Lemma clamp_inside (x : Q) :
  0 <= x -> x <= 100 -> Spec.clamp 0 100 x == x.
Proof.
  intros H0 H1. unfold Spec.clamp.
  rewrite Q.min_r by exact H1. rewrite Q.max_r by exact H0. reflexivity.
Qed.

(** C5, as stated, fails: for a loan of principal 100000 with 120000
    remaining, the label and the bar both get -20, whereas the value clamped
    to the interval from 0 to 100 is 0. *)
Lemma payoff_shown_below_zero :
  let c := Loans.card Sample.now (Sample.loan 100000 120000 None) in
  Loans.label c =n= JS.Fin (-20)
  /\ Loans.barWidth c =n= JS.Fin (-20)
  /\ Spec.payoff_clamped 100000 120000 == 0
  /\ ~ (Loans.label c =n= JS.Fin (Spec.payoff_clamped 100000 120000))
  /\ ~ (Loans.barWidth c =n= JS.Fin (Spec.payoff_clamped 100000 120000)).
Proof.
  cbv zeta. repeat split; try (vm_compute; reflexivity);
    vm_compute; discriminate.
Qed.

(** C5, amended. For every loan with a non-zero principal the payoff
    percentage is (principal - remaining) / principal * 100; the label shows
    it as it is and the bar shows it capped at 100 from above only.  For a
    loan with 0 <= remaining <= principal both equal the value clamped to the
    interval from 0 to 100. *)
Theorem payoff_percentage_shown (today : Clock.Date) (loan : Loan.Row) :
  let p := Loan.principal_amount loan in
  let r := Loan.remaining_amount loan in
  let c := Loans.card today loan in
  ~ p == 0 ->
  Loans.label c = JS.Fin ((p - r) / p * 100)
  /\ Loans.barWidth c =n= JS.Fin (Qmin ((p - r) / p * 100) 100)
  /\ (0 < p -> 0 <= r -> r <= p ->
      Loans.label c =n= JS.Fin (Spec.payoff_clamped p r)
      /\ Loans.barWidth c =n= JS.Fin (Spec.payoff_clamped p r)).
Proof.
  intros p r c Hnz. subst c. unfold Loans.card. simpl.
  rewrite (loanProgress_finite loan Hnz). fold p r.
  split; [reflexivity|]. split; [apply min_with_100|].
  intros Hp Hr Hrp.
  destruct (payoff_in_range p r Hp Hr Hrp) as [Hlo Hhi].
  unfold Spec.payoff_clamped. split.
  - simpl. rewrite clamp_inside by assumption. reflexivity.
  - eapply eqn_trans; [apply min_with_100|]. simpl.
    rewrite clamp_inside by assumption.
    rewrite Q.min_l by exact Hhi. reflexivity.
Qed.

Lemma payoff_percentage_shown_witness :
  Loans.barWidth (Loans.card Sample.now (Sample.loan 100000 40000 None))
  =n= JS.Fin (Spec.payoff_clamped 100000 40000).
Proof.
  assert (Hnz : ~ 100000 == 0) by (unfold Qeq; simpl; lia).
  assert (Hp : 0 < 100000) by (unfold Qlt; simpl; lia).
  assert (Hr : 0 <= 40000) by (unfold Qle; simpl; lia).
  assert (Hrp : 40000 <= 100000) by (unfold Qle; simpl; lia).
  exact (proj2 (proj2 (proj2
    (payoff_percentage_shown Sample.now (Sample.loan 100000 40000 None) Hnz))
    Hp Hr Hrp)).
Defined.

Lemma payoff_scenario :
  Loans.loanProgress (Sample.loan 100000 40000 None) =n= JS.Fin 60.
Proof. vm_compute. reflexivity. Qed.

Lemma payoff_complete (loan : Loan.Row) :
  ~ Loan.principal_amount loan == 0 ->
  Loan.remaining_amount loan == 0 ->
  Loans.loanProgress loan =n= JS.Fin 100.
Proof.
  intros Hnz Hr. rewrite (loanProgress_finite loan Hnz). simpl.
  rewrite Hr. field. exact Hnz.
Qed.

(** C6 at the failing input. The payoff percentage of a loan with principal
    0 is NaN when nothing remains and minus infinity when something does, not
    0; the budget percentage of a zero limit is likewise NaN.  The savings
    rate is guarded: with income 0 it is 0 whatever the expense. *)
Theorem zero_principal_payoff_unguarded :
  Loans.loanProgress (Sample.loan 0 0 None) = JS.NaN
  /\ Loans.label (Loans.card Sample.now (Sample.loan 0 0 None)) = JS.NaN
  /\ Loans.loanProgress (Sample.loan 0 500 None) = JS.NegInf
  /\ Loans.barWidth (Loans.card Sample.now (Sample.loan 0 500 None))
     = JS.NegInf
  /\ Dashboard.budgetPercentage []
       (Dashboard.select_budget (Sample.budget "b1" "u1" None 0 80 true))
     = JS.NaN
  /\ (forall e, Dashboard.computeSavingsRate (JS.Fin 0) e = JS.Fin 0).
Proof.
  repeat split; try reflexivity.
Qed.

Lemma of_iso_not_west (z : Clock.Zone) (e : Schema.date) :
  (Clock.offsetAtUtcMidnight z e <= 0)%Z ->
  Clock.of_iso z e
  = Clock.mkDate (Schema.year e) (Schema.month e - 1) (Schema.day e) z.
Proof.
  intros H. unfold Clock.of_iso. cbv zeta.
  destruct (Z.ltb_spec 0 (Clock.offsetAtUtcMidnight z e)); [lia | reflexivity].
Qed.

Lemma months_remaining_not_west (today : Clock.Date) (e : Schema.date) :
  (Clock.offsetAtUtcMidnight (Clock.zone today) e <= 0)%Z ->
  Loans.getMonthsRemaining today (Some e)
  = Some (Z.max 0 (Spec.calendar_months_between today e)).
Proof.
  intros H. unfold Loans.getMonthsRemaining. cbv zeta.
  rewrite (of_iso_not_west _ _ H). reflexivity.
Qed.

Lemma months_remaining_six_months_on (today : Clock.Date) :
  (Clock.offsetAtUtcMidnight (Clock.zone today) (Spec.add_months today 6)
   <= 0)%Z ->
  Loans.getMonthsRemaining today (Some (Spec.add_months today 6)) = Some 6%Z.
Proof.
  intros H. rewrite (months_remaining_not_west _ _ H).
  unfold Spec.calendar_months_between, Spec.add_months. simpl.
  f_equal.
  pose proof (Z.div_mod (Spec.month_index today + 6) 12 ltac:(lia)) as Hd.
  unfold Spec.month_index in *. lia.
Qed.

(** C9 at the failing input. In a runtime west of UTC (America/Bogota, five
    hours behind) on 2 November 2026, a loan ending on 1 May 2027 is six
    calendar months away and the page computes 5; a loan ending on
    1 December 2026 is one calendar month away and the page computes 0 and
    shows Completed.  The end date is read as UTC midnight and its month is
    taken in local time, where it is still the evening before.  The same
    loans seen in UTC give 6 and 1. *)
Theorem months_remaining_west_of_utc :
  let today := Sample.now_in Sample.bogota in
  let may1 := Schema.mkDate 2027 5 1 in
  let dec1 := Schema.mkDate 2026 12 1 in
  Spec.calendar_months_between today may1 = 6%Z
  /\ Loans.getMonthsRemaining today (Some may1) = Some 5%Z
  /\ Spec.calendar_months_between today dec1 = 1%Z
  /\ Loans.getMonthsRemaining today (Some dec1) = Some 0%Z
  /\ LoansView.monthsText
       (Loans.card today (Sample.loan 100000 40000 (Some dec1)))
     = Some LoansView.Completed
  /\ Loans.getMonthsRemaining Sample.now (Some may1) = Some 6%Z
  /\ Loans.getMonthsRemaining Sample.now (Some dec1) = Some 1%Z.
Proof.
  cbv zeta. repeat split; vm_compute; reflexivity.
Qed.

(** ** Writing to a [numeric(15, 2)] column *)

Lemma Qfloor_plus_half (n : Z) : Qfloor (inject_Z n + (1 # 2)) = n.
Proof.
  unfold Qfloor, Qplus, inject_Z. simpl.
  symmetry. apply (Z.div_unique _ 2 n 1); lia.
Qed.

Lemma round_half_away_whole (x : Q) (n : Z) :
  x == inject_Z n -> Numeric.round_half_away x = n.
Proof.
  intros H. unfold Numeric.round_half_away.
  destruct (Qle_bool 0 x).
  - rewrite H. apply Qfloor_plus_half.
  - assert (H' : - x + (1 # 2) == inject_Z (- n) + (1 # 2)).
    { rewrite H, inject_Z_opp. reflexivity. }
    rewrite H', Qfloor_plus_half. lia.
Qed.

Lemma round2_cents (q : Q) (n : Z) :
  q == n # 100 -> Numeric.round2 q = n # 100.
Proof.
  intros H. unfold Numeric.round2. f_equal. apply round_half_away_whole.
  rewrite H. unfold Qeq. simpl. lia.
Qed.

Lemma Qle_bool_comp (a a' b b' : Q) :
  a == a' -> b == b' -> Qle_bool a b = Qle_bool a' b'.
Proof.
  intros Ha Hb. destruct (Qle_bool a' b') eqn:H.
  - apply Qle_bool_iff. apply Qle_bool_iff in H. rewrite Ha, Hb. exact H.
  - apply not_true_is_false. intros H1. apply Qle_bool_iff in H1.
    rewrite Ha, Hb in H1. apply Qle_bool_iff in H1. congruence.
Qed.

Lemma in_range_comp (q q' : Q) :
  q == q' -> Numeric.in_range q = Numeric.in_range q'.
Proof.
  intros H. unfold Numeric.in_range, JS.Qlt_bool.
  rewrite (Qle_bool_comp q q' (- Numeric.limit) (- Numeric.limit) H
             (Qeq_refl _)).
  rewrite (Qle_bool_comp Numeric.limit Numeric.limit q q' (Qeq_refl _) H).
  reflexivity.
Qed.

Lemma in_range_iff (q : Q) :
  Numeric.in_range q = true <-> - Numeric.limit < q /\ q < Numeric.limit.
Proof.
  unfold Numeric.in_range. rewrite andb_true_iff, !Qlt_bool_iff. reflexivity.
Qed.

Lemma write_cents (q : Q) (n : Z) :
  q == n # 100 -> Numeric.in_range q = true ->
  Numeric.write q = Some (n # 100).
Proof.
  intros H Hr. unfold Numeric.write. rewrite (round2_cents q n H).
  rewrite <- (in_range_comp q (n # 100) H), Hr. reflexivity.
Qed.

Lemma write_value (q a : Q) :
  Numeric.write q = Some a ->
  a = Numeric.round2 q /\ Numeric.in_range a = true.
Proof.
  unfold Numeric.write.
  destruct (Numeric.in_range (Numeric.round2 q)) eqn:H; [|discriminate].
  intros E. injection E as <-. split; [reflexivity | exact H].
Qed.

Lemma cents_plus (a b : Q) (na nb : Z) :
  a == na # 100 -> b == nb # 100 -> a + b == (na + nb) # 100.
Proof. intros -> ->. unfold Qeq. simpl. lia. Qed.

Lemma cents_minus (a b : Q) (na nb : Z) :
  a == na # 100 -> b == nb # 100 -> a - b == (na - nb) # 100.
Proof. intros -> ->. unfold Qeq. simpl. lia. Qed.

(** ** Recording a transaction *)

Lemma same_but_balance_refl (r : Account.Row) : Spec.same_but_balance r r.
Proof. destruct r; reflexivity. Qed.

Lemma same_but_balance_set (b : Q) (r : Account.Row) :
  Spec.same_but_balance r (Account.set_balance b r).
Proof. destruct r; reflexivity. Qed.

Lemma filter_map_update {A : Type} (p : A -> bool) (g : A -> A) (l : list A) :
  (forall x, p (g x) = p x) ->
  filter p (map (fun x => if p x then g x else x) l) = map g (filter p l).
Proof.
  intros Hg. induction l as [|x l IH]; simpl; [reflexivity|].
  destruct (p x) eqn:Hx; simpl.
  - rewrite Hg, Hx, IH. reflexivity.
  - rewrite Hx, IH. reflexivity.
Qed.

Lemma accounts_by_id_has_account (db : Store.Database) (uid i : string)
  (acct : Account.Row) :
  In acct (Store.accounts_by_id db uid i) -> Store.has_account db i = true.
Proof.
  unfold Store.accounts_by_id, Store.has_account. intros H.
  apply filter_In in H. destruct H as [Hin Hp].
  apply andb_true_iff in Hp. apply existsb_exists.
  exists acct. split; [exact Hin | apply Hp].
Qed.

Lemma accounts_by_id_after_update (db : Store.Database) (uid i : string)
  (n : JS.number) (b : Q) :
  Numeric.write_nullable n = Some b ->
  Store.accounts_by_id (Store.update_balance db uid i n) uid i
  = map (Account.set_balance b) (Store.accounts_by_id db uid i).
Proof.
  intros Hw. unfold Store.accounts_by_id, Store.update_balance.
  rewrite Hw. simpl.
  apply (filter_map_update
           (fun r => Store.account_policy uid r && String.eqb (Account.id r) i)).
  intros r. reflexivity.
Qed.

Lemma accounts_by_id_updated (db : Store.Database) (uid i : string)
  (n : JS.number) (b : Q) (txs : list Transaction.Row) (acct : Account.Row) :
  Store.accounts_by_id db uid i = [acct] ->
  Numeric.write_nullable n = Some b ->
  Store.accounts_by_id
    (Store.update_balance
       (Store.mkDatabase (Store.accounts db) (Store.categories db) txs
                         (Store.budgets db)) uid i n) uid i
  = [Account.set_balance b acct].
Proof.
  intros Hrow Hw. rewrite (accounts_by_id_after_update _ _ _ _ _ Hw).
  change (Store.accounts_by_id
            (Store.mkDatabase (Store.accounts db) (Store.categories db) txs
                              (Store.budgets db)) uid i)
    with (Store.accounts_by_id db uid i).
  rewrite Hrow. reflexivity.
Qed.

(** The two writes of a submission that passes the guard and whose insert is
    accepted: the row appended, with the amount as the column stores it, and
    the balance update requested. *)
Lemma handleSubmit_effect (parseFloat : string -> JS.number)
  (db : Store.Database) (uid fresh : string) (f : AddTransactionModal.Form)
  (d : Schema.date) (acct : Account.Row) (A a : Q) :
  AddTransactionModal.accountId f <> ""%string ->
  AddTransactionModal.amount f <> ""%string ->
  AddTransactionModal.date f = Some d ->
  parseFloat (AddTransactionModal.amount f) = JS.Fin A ->
  Numeric.write A = Some a ->
  Store.has_category db
    (AddTransactionModal.or_null (AddTransactionModal.categoryId f)) = true ->
  Store.accounts_by_id db uid (AddTransactionModal.accountId f) = [acct] ->
  AddTransactionModal.handleSubmit parseFloat db (Some uid) fresh f
  = (Store.update_balance
       (Store.mkDatabase (Store.accounts db) (Store.categories db)
          (Store.transactions db ++
             [Transaction.mkRow fresh uid (AddTransactionModal.accountId f)
                (AddTransactionModal.or_null (AddTransactionModal.categoryId f))
                a
                (AddTransactionModal.to_transaction_type
                   (AddTransactionModal.type f))
                (AddTransactionModal.or_null (AddTransactionModal.merchant f))
                (AddTransactionModal.or_null
                   (AddTransactionModal.description f))
                d Schema.manual])
          (Store.budgets db))
       uid (AddTransactionModal.accountId f)
       (JS.Fin (match AddTransactionModal.type f with
                | AddTransactionModal.income => Account.balance acct + A
                | AddTransactionModal.expense => Account.balance acct - A
                end)),
     AddTransactionModal.Submitted).
Proof.
  intros Hacc Hamt Hdate Hparse Hw Hcat Hrow.
  unfold AddTransactionModal.handleSubmit.
  apply String.eqb_neq in Hacc. apply String.eqb_neq in Hamt.
  rewrite Hacc, Hamt, Hdate. cbn [orb].
  unfold Store.insert_transaction. cbn [Store.ins_amount Store.ins_user_id
    Store.ins_account_id Store.ins_category_id Store.ins_type
    Store.ins_merchant Store.ins_description Store.ins_transaction_date
    Store.ins_source].
  rewrite Hparse. cbn [Store.stored_amount]. rewrite Hw.
  rewrite String.eqb_refl, Hcat.
  rewrite (accounts_by_id_has_account db uid _ acct)
    by (rewrite Hrow; left; reflexivity).
  cbn [andb].
  match goal with
  | |- context [Store.accounts_by_id ?db1 uid ?i] =>
      change (Store.accounts_by_id db1 uid i)
        with (Store.accounts_by_id db uid i)
  end.
  rewrite Hrow. cbn [Store.single].
  destruct (AddTransactionModal.type f); reflexivity.
Qed.

Lemma expense_150_from_1000_leaves_850 :
  map Account.balance
    (Store.accounts_by_id
       (fst (AddTransactionModal.handleSubmit Sample.parse150 Sample.db_balance
               (Some "u1"%string) "t9" Sample.expense_form)) "u1" "a1")
  = [85000 # 100].
Proof. vm_compute. reflexivity. Qed.

(** C3, as stated, fails: an income of 0.01 recorded against an account
    whose balance is 9999999999999.99 is submitted and its row is stored,
    but the sum does not fit the balance column, the update is refused, and
    the balance stays what it was instead of growing by the amount. *)
Lemma balance_unchanged_at_top_of_range :
  let r := AddTransactionModal.handleSubmit Edge.parse_cent Edge.db
             (Some "u1"%string) "t9" Edge.income_form in
  snd r = AddTransactionModal.Submitted
  /\ map Transaction.amount (Store.transactions (fst r)) = [1 # 100]
  /\ map Account.balance (Store.accounts_by_id Edge.db "u1" "a1") = [Edge.top]
  /\ map Account.balance (Store.accounts_by_id (fst r) "u1" "a1") = [Edge.top]
  /\ ~ (Edge.top == Edge.top + (1 # 100)).
Proof.
  cbv zeta. split; [vm_compute; reflexivity|].
  split; [vm_compute; reflexivity|].
  split; [vm_compute; reflexivity|].
  split; [vm_compute; reflexivity|].
  vm_compute. discriminate.
Qed.

(** C3, amended. Recording a transaction of amount A against an account
    whose stored balance is B, where A and B have at most two decimal places
    and A and the new balance lie within the range of the column (absolute
    value below 10^13), leaves that account with balance B + A for an
    income and B - A for an expense, and with every other field as before;
    an account with balance 1000 has balance 850 after an expense of 150 is
    recorded. *)
Theorem balance_after_recording (parseFloat : string -> JS.number)
  (db : Store.Database) (uid fresh : string) (f : AddTransactionModal.Form)
  (d : Schema.date) (acct : Account.Row) (A : Q) :
  AddTransactionModal.accountId f <> ""%string ->
  AddTransactionModal.amount f <> ""%string ->
  AddTransactionModal.date f = Some d ->
  parseFloat (AddTransactionModal.amount f) = JS.Fin A ->
  Store.has_category db
    (AddTransactionModal.or_null (AddTransactionModal.categoryId f)) = true ->
  Store.accounts_by_id db uid (AddTransactionModal.accountId f) = [acct] ->
  Numeric.is_cents A ->
  Numeric.is_cents (Account.balance acct) ->
  Numeric.in_range A = true ->
  let B := Account.balance acct in
  let B' := match AddTransactionModal.type f with
            | AddTransactionModal.income => B + A
            | AddTransactionModal.expense => B - A
            end in
  Numeric.in_range B' = true ->
  let r := AddTransactionModal.handleSubmit parseFloat db (Some uid) fresh f in
  snd r = AddTransactionModal.Submitted
  /\ (exists acct',
        Store.accounts_by_id (fst r) uid (AddTransactionModal.accountId f)
        = [acct']
        /\ Spec.same_but_balance acct acct'
        /\ Account.balance acct' == B')
  /\ Forall2 Qeq
       (map Account.balance
          (Store.accounts_by_id
             (fst (AddTransactionModal.handleSubmit Sample.parse150
                     Sample.db_balance (Some "u1"%string) "t9"
                     Sample.expense_form)) "u1" "a1"))
       [850].
Proof.
  intros Hacc Hamt Hdate Hparse Hcat Hrow [na Hna] [nb Hnb] HrA B B' HrB r.
  subst r.
  split; [|split].
  - rewrite (handleSubmit_effect parseFloat db uid fresh f d acct A (na # 100)
               Hacc Hamt Hdate Hparse (write_cents A na Hna HrA) Hcat Hrow).
    reflexivity.
  - rewrite (handleSubmit_effect parseFloat db uid fresh f d acct A (na # 100)
               Hacc Hamt Hdate Hparse (write_cents A na Hna HrA) Hcat Hrow).
    cbn [fst]. fold B. 
    assert (Hc : exists n : Z, B' == n # 100).
    { subst B'. destruct (AddTransactionModal.type f).
      - exists (nb - na)%Z. apply cents_minus; assumption.
      - exists (nb + na)%Z. apply cents_plus; assumption. }
    destruct Hc as [n Hn].
    exists (Account.set_balance (n # 100) acct).
    split.
    + apply accounts_by_id_updated; [exact Hrow|].
      cbn [Numeric.write_nullable].
      change (Numeric.write B' = Some (n # 100)).
      apply write_cents; assumption.
    + split; [apply same_but_balance_set|].
      destruct acct; cbn [Account.set_balance Account.balance].
      symmetry. exact Hn.
  - rewrite expense_150_from_1000_leaves_850.
    constructor; [reflexivity | constructor].
Qed.

Lemma balance_after_recording_witness :
  let r := AddTransactionModal.handleSubmit Sample.parse150 Sample.db_balance
             (Some "u1"%string) "t9" Sample.expense_form in
  Numeric.is_cents 150
  /\ Numeric.is_cents 1000
  /\ Numeric.in_range 150 = true
  /\ Numeric.in_range (1000 - 150) = true
  /\ snd r = AddTransactionModal.Submitted
  /\ exists acct',
       Store.accounts_by_id (fst r) "u1" "a1" = [acct']
       /\ Spec.same_but_balance (Sample.account "a1" "u1" 1000 true) acct'
       /\ Account.balance acct' == 1000 - 150.
Proof.
  assert (Ha : Numeric.is_cents 150) by (exists 15000%Z; reflexivity).
  assert (Hb : Numeric.is_cents 1000) by (exists 100000%Z; reflexivity).
  pose proof (balance_after_recording Sample.parse150 Sample.db_balance
                "u1" "t9" Sample.expense_form (Sample.nov 2)
                (Sample.account "a1" "u1" 1000 true) 150) as H.
  specialize (H ltac:(discriminate) ltac:(discriminate)
                eq_refl eq_refl eq_refl eq_refl Ha Hb eq_refl eq_refl).
  cbv zeta in *. destruct H as (Hs & Hacct & _).
  split; [exact Ha|]. split; [exact Hb|].
  split; [reflexivity|]. split; [reflexivity|].
  split; [exact Hs | exact Hacct].
Defined.

Lemma accounts_frame_refl (uid i : string) (l : list Account.Row) :
  Forall2 (fun r r' =>
             Spec.same_but_balance r r'
             /\ (r' = r \/ (Account.id r = i /\ Account.user_id r = uid)))
          l l.
Proof.
  induction l as [|r l IH]; constructor; [|exact IH].
  split; [apply same_but_balance_refl | left; reflexivity].
Qed.

Lemma update_balance_frame (db : Store.Database) (uid i : string)
  (n : JS.number) :
  let db' := Store.update_balance db uid i n in
  Forall2 (fun r r' =>
             Spec.same_but_balance r r'
             /\ (r' = r \/ (Account.id r = i /\ Account.user_id r = uid)))
          (Store.accounts db) (Store.accounts db')
  /\ Store.categories db' = Store.categories db
  /\ Store.transactions db' = Store.transactions db
  /\ Store.budgets db' = Store.budgets db.
Proof.
  unfold Store.update_balance.
  destruct (Numeric.write_nullable n) as [b|]; cbv zeta;
    [|split; [apply accounts_frame_refl | repeat split]].
  simpl. split; [|repeat split].
  induction (Store.accounts db) as [|r l IH]; simpl; constructor; [|exact IH].
  unfold Store.account_policy.
  destruct (String.eqb (Account.user_id r) uid) eqn:Hu;
    destruct (String.eqb (Account.id r) i) eqn:Hi; simpl;
    try (split; [apply same_but_balance_refl | left; reflexivity]).
  apply String.eqb_eq in Hu. apply String.eqb_eq in Hi.
  split; [apply same_but_balance_set | right; split; assumption].
Qed.

Lemma insert_transaction_frame (db db1 : Store.Database) (uid fresh : string)
  (t : Store.TransactionInsert) :
  Store.insert_transaction db uid fresh t = Some db1 ->
  Store.accounts db1 = Store.accounts db
  /\ Store.categories db1 = Store.categories db
  /\ Store.budgets db1 = Store.budgets db
  /\ exists row,
       Store.transactions db1 = Store.transactions db ++ [row]
       /\ Transaction.account_id row = Store.ins_account_id t
       /\ Transaction.user_id row = uid.
Proof.
  unfold Store.insert_transaction.
  destruct (Store.stored_amount (Store.ins_amount t)) as [a|];
    [|discriminate].
  destruct (String.eqb (Store.ins_user_id t) uid) eqn:Hu; simpl;
    [|discriminate].
  destruct (Store.has_account db (Store.ins_account_id t)
            && Store.has_category db (Store.ins_category_id t));
    [|discriminate].
  intros H. injection H as <-. simpl. repeat split.
  eexists. repeat split. simpl. apply String.eqb_eq, Hu.
Qed.

Lemma Forall2_combine {A B : Type} (P : A -> B -> Prop) (l : list A)
  (l' : list B) :
  Forall2 P l l' -> forall x y, In (x, y) (combine l l') -> P x y.
Proof.
  induction 1 as [|a b l l' Hab _ IH]; simpl; intros x y Hin.
  - contradiction.
  - destruct Hin as [Heq | Hin]; [|apply IH, Hin].
    injection Heq as <- <-. exact Hab.
Qed.

Lemma unique_key (l : list Account.Row) (r1 r2 : Account.Row) :
  NoDup (map Account.id l) -> In r1 l -> In r2 l ->
  Account.id r1 = Account.id r2 -> r1 = r2.
Proof.
  induction l as [|r l IH]; simpl; intros Hnd H1 H2 Hid; [contradiction|].
  inversion Hnd as [|? ? Hnotin Hnd']; subst.
  destruct H1 as [-> | H1], H2 as [-> | H2].
  - reflexivity.
  - exfalso. apply Hnotin. rewrite Hid. apply in_map, H2.
  - exfalso. apply Hnotin. rewrite <- Hid. apply in_map, H1.
  - apply IH; assumption.
Qed.

(** C10. Recording a transaction changes no account row other than those
    with the key of the linked account that belong to the submitting user,
    and on such a row nothing but the balance; categories and budgets are
    untouched, and the transactions gain at most the one new row, linked to
    that account.  Keys being unique, at most one account row is changed. *)
Theorem recording_frame (parseFloat : string -> JS.number)
  (db : Store.Database) (user : option string) (fresh : string)
  (f : AddTransactionModal.Form) :
  let db' := fst (AddTransactionModal.handleSubmit parseFloat db user fresh f) in
  let paired := combine (Store.accounts db) (Store.accounts db') in
  Forall2 (fun r r' =>
             Spec.same_but_balance r r'
             /\ (r' = r
                 \/ (Account.id r = AddTransactionModal.accountId f
                     /\ Some (Account.user_id r) = user)))
          (Store.accounts db) (Store.accounts db')
  /\ Store.categories db' = Store.categories db
  /\ Store.budgets db' = Store.budgets db
  /\ (Store.transactions db' = Store.transactions db
      \/ exists row,
           Store.transactions db' = Store.transactions db ++ [row]
           /\ Transaction.account_id row = AddTransactionModal.accountId f)
  /\ (NoDup (map Account.id (Store.accounts db)) ->
      forall r1 r1' r2 r2',
        In (r1, r1') paired -> In (r2, r2') paired ->
        r1' <> r1 -> r2' <> r2 -> r1 = r2).
Proof.
  intros db' paired.
  assert (Hmain :
    Forall2 (fun r r' =>
               Spec.same_but_balance r r'
               /\ (r' = r
                   \/ (Account.id r = AddTransactionModal.accountId f
                       /\ Some (Account.user_id r) = user)))
            (Store.accounts db) (Store.accounts db')
    /\ Store.categories db' = Store.categories db
    /\ Store.budgets db' = Store.budgets db
    /\ (Store.transactions db' = Store.transactions db
        \/ exists row,
             Store.transactions db' = Store.transactions db ++ [row]
             /\ Transaction.account_id row = AddTransactionModal.accountId f)).
  { subst db'. clear paired.
    assert (Hsame : forall u,
      Forall2 (fun r r' =>
                 Spec.same_but_balance r r'
                 /\ (r' = r
                     \/ (Account.id r = AddTransactionModal.accountId f
                         /\ Some (Account.user_id r) = u)))
              (Store.accounts db) (Store.accounts db)).
    { intros u. induction (Store.accounts db) as [|r l IH]; constructor;
        [split; [apply same_but_balance_refl | left; reflexivity] | exact IH]. }
    unfold AddTransactionModal.handleSubmit.
    destruct user as [uid|]; simpl; [|auto].
    destruct (String.eqb (AddTransactionModal.accountId f) ""
              || String.eqb (AddTransactionModal.amount f) ""); simpl; [auto|].
    destruct (match AddTransactionModal.date f with
              | Some d => Store.insert_transaction db uid fresh _
              | None => None
              end) as [db1|] eqn:Hins; simpl; [|auto].
    destruct (AddTransactionModal.date f) as [d|]; [|discriminate].
    apply insert_transaction_frame in Hins. simpl in Hins.
    destruct Hins as (Ha & Hc & Hb & row & Ht & Hrow & _).
    destruct (Store.single _) as [accountData|]; simpl.
    - match goal with
      | |- context [Store.update_balance db1 uid ?i ?n] =>
          pose proof (update_balance_frame db1 uid i n) as Hup
      end.
      cbv zeta in Hup. destruct Hup as (Hf & Hc' & Ht' & Hb').
      rewrite Hc', Ht', Hb', Hc, Hb, Ht. rewrite Ha in Hf.
      split; [|split; [reflexivity | split; [reflexivity|]]].
      + eapply Forall2_impl; [|exact Hf]. simpl.
        intros r r' [Hs [Heq | [Hi Hu]]]; split; auto.
        right. split; [exact Hi | f_equal; exact Hu].
      + right. exists row. split; [reflexivity | exact Hrow].
    - rewrite Ha, Hc, Hb, Ht.
      split; [apply Hsame | split; [reflexivity | split; [reflexivity|]]].
      right. exists row. split; [reflexivity | exact Hrow]. }
  destruct Hmain as (Hf & Hc & Hb & Ht).
  repeat (split; [assumption|]).
  intros Hnd r1 r1' r2 r2' H1 H2 Hn1 Hn2.
  pose proof (Forall2_combine _ _ _ Hf _ _ H1) as [_ [E1 | [K1 _]]];
    [contradiction|].
  pose proof (Forall2_combine _ _ _ Hf _ _ H2) as [_ [E2 | [K2 _]]];
    [contradiction|].
  apply (unique_key (Store.accounts db)); try assumption.
  - apply (in_combine_l _ _ _ _ H1).
  - apply (in_combine_l _ _ _ _ H2).
  - congruence.
Qed.

Lemma recording_frame_witness :
  let db' := fst (AddTransactionModal.handleSubmit Sample.parse150
                    Sample.db_balance (Some "u1"%string) "t9"
                    Sample.expense_form) in
  let paired := combine (Store.accounts Sample.db_balance)
                        (Store.accounts db') in
  NoDup (map Account.id (Store.accounts Sample.db_balance))
  /\ Store.budgets db' = Store.budgets Sample.db_balance
  /\ (forall r1 r1' r2 r2',
        In (r1, r1') paired -> In (r2, r2') paired ->
        r1' <> r1 -> r2' <> r2 -> r1 = r2).
Proof.
  cbv zeta.
  assert (Hnd : NoDup (map Account.id (Store.accounts Sample.db_balance))).
  { repeat constructor; simpl; intuition discriminate. }
  pose proof (recording_frame Sample.parse150 Sample.db_balance
                (Some "u1"%string) "t9" Sample.expense_form) as H.
  cbv zeta in H. destruct H as (_ & _ & Hb & _ & Hone).
  split; [exact Hnd | split; [exact Hb | exact (Hone Hnd)]].
Defined.

(** ** The dashboard cards *)

Lemma monthly_stats_finite (db : Store.Database) (uid : string)
  (now : Clock.Date) (st : Dashboard.State) :
  let s := Dashboard.stats (Dashboard.loadDashboardData db (Some uid) now st) in
  exists i e,
    Dashboard.monthlyIncome s = JS.Fin i
    /\ Dashboard.monthlyExpense s = JS.Fin e
    /\ Dashboard.savingsRate s
       = Dashboard.computeSavingsRate (JS.Fin i) (JS.Fin e).
Proof.
  simpl.
  set (rows := Store.transactions_since db uid uid _).
  destruct (sum_of_type_finite Schema.income rows) as (i & Hi & _).
  destruct (sum_of_type_finite Schema.expense rows) as (e & He & _).
  exists i, e. rewrite Hi, He. repeat split.
Qed.

Lemma ratio_times_income (i e : Q) :
  0 < i -> (i - e) / i * i == i - e.
Proof.
  intros Hi. field. intros Hz. rewrite Hz in Hi. lra.
Qed.

Lemma ratio_at_least (i e c : Q) :
  0 < i -> (c <= (i - e) / i <-> c * i <= i - e).
Proof.
  intros Hi. pose proof (ratio_times_income i e Hi) as Hm. split; intros H.
  - rewrite <- Hm. apply Qmult_le_compat_r; [exact H | lra].
  - apply Qle_shift_div_l; assumption.
Qed.

Lemma ratio_at_most (i e c : Q) :
  0 < i -> ((i - e) / i <= c <-> i - e <= c * i).
Proof.
  intros Hi. pose proof (ratio_times_income i e Hi) as Hm. split; intros H.
  - rewrite <- Hm. apply Qmult_le_compat_r; [exact H | lra].
  - apply Qle_shift_div_r; assumption.
Qed.

Lemma savings_rate_value (i e : Q) :
  exists r,
    Dashboard.computeSavingsRate (JS.Fin i) (JS.Fin e) = JS.Fin r
    /\ 0 <= r
    /\ (i <= 0 \/ i <= e -> r == 0)
    /\ (20 <= r <-> 0 < i /\ 5 * e <= 4 * i).
Proof.
  unfold Dashboard.computeSavingsRate. simpl.
  destruct (JS.Qlt_bool 0 i) eqn:Hpos.
  - apply Qlt_bool_iff in Hpos.
    assert (Hnz : Qeq_bool i 0 = false).
    { apply not_true_is_false. intros Hz. apply Qeq_bool_iff in Hz. lra. }
    rewrite Hnz. simpl.
    pose proof (ratio_at_least i e (1 # 5) Hpos) as H20.
    pose proof (ratio_at_least i e 0 Hpos) as H0.
    set (d := (i - e) / i) in *.
    destruct (Qle_bool (d * 100) 0) eqn:Hneg.
    + apply Qle_bool_iff in Hneg. exists 0. split; [reflexivity|].
      split; [lra|]. split; [intros _; reflexivity|].
      split; [intros H; lra|].
      intros [_ H]. assert (Hd : (1 # 5) <= d) by (apply H20; lra). lra.
    + apply Qle_bool_false_iff in Hneg. exists (d * 100).
      split; [reflexivity|]. split; [lra|].
      split.
      * intros [H | H]; [lra|].
        assert (Hd : d <= 0) by (apply (ratio_at_most i e 0 Hpos); lra). lra.
      * split.
        -- intros H. split; [exact Hpos|].
           assert (Hd : (1 # 5) <= d) by lra. apply H20 in Hd. lra.
        -- intros [_ H]. assert (Hd : (1 # 5) <= d) by (apply H20; lra). lra.
  - apply Qlt_bool_false_iff in Hpos. exists 0. simpl.
    split; [reflexivity|]. split; [lra|]. split; [intros _; reflexivity|].
    split; [intros H; lra | intros [H _]; lra].
Qed.

(** X1. The spending alert of the dashboard shows exactly when the month's
    expense exceeds the month's income, that is when the net cash flow shown
    is negative; the savings rate is then 0, so the spending alert and the
    card that congratulates on the savings rate never show together. *)
Theorem spending_alert_iff_negative_cash_flow (db : Store.Database)
  (uid : string) (now : Clock.Date) (st : Dashboard.State) :
  let s := Dashboard.stats (Dashboard.loadDashboardData db (Some uid) now st) in
  exists n,
    DashboardView.netCashFlow s = JS.Fin n
    /\ (DashboardView.showSpendingAlert s = true <-> n < 0)
    /\ (n < 0 -> Dashboard.savingsRate s =n= JS.Fin 0)
    /\ DashboardView.showSpendingAlert s && DashboardView.showGreatJob s
       = false.
Proof.
  intros s.
  destruct (monthly_stats_finite db uid now st) as (i & e & Hi & He & Hr).
  fold s in Hi, He, Hr.
  destruct (savings_rate_value i e) as (r & Hv & _ & Hzero & H20).
  unfold DashboardView.netCashFlow, DashboardView.showSpendingAlert,
    DashboardView.showGreatJob.
  rewrite Hi, He, Hr, Hv. simpl. exists (i - e).
  split; [reflexivity|].
  assert (Hgt : JS.Qlt_bool i e = true <-> i - e < 0).
  { rewrite Qlt_bool_iff. split; intros H; lra. }
  split; [exact Hgt|].
  split.
  - intros Hn. apply Hzero. right. lra.
  - destruct (JS.Qlt_bool i e) eqn:Hlt; [|reflexivity]. simpl.
    apply not_true_is_false. intros Hge. apply Qle_bool_iff in Hge.
    apply H20 in Hge. apply Qlt_bool_iff in Hlt.
    assert (Hz : r == 0) by (apply Hzero; right; lra). lra.
Qed.

(** ** More on the budget loop *)

Lemma quotient_at_least (s l c : Q) :
  0 < l -> (c <= s / l <-> c * l <= s).
Proof.
  intros Hl.
  assert (Hm : s / l * l == s).
  { field. intros Hz. rewrite Hz in Hl. lra. }
  split; intros H.
  - rewrite <- Hm. apply Qmult_le_compat_r; [exact H | lra].
  - apply Qle_shift_div_l; assumption.
Qed.

Lemma fires_iff_at_least_80 (db : Store.Database) (uid : string)
  (now : Clock.Date) (st : Dashboard.State) (b : Budget.Row) :
  In b (Store.budgets db) ->
  Spec.is_active_budget_of uid b = true ->
  (Spec.fires db uid now st b
   <-> JS.ge (Spec.computed_percentage db uid now b) (JS.Fin 80) = true).
Proof.
  intros Hin Hact. unfold Spec.fires. rewrite dashboard_alerts_iff. split.
  - intros (b' & _ & _ & Hge & Heq).
    replace (Spec.computed_percentage db uid now b)
      with (Spec.computed_percentage db uid now b'); [exact Hge|].
    change (Dashboard.percentage (Spec.alert_of db uid now b')
            = Dashboard.percentage (Spec.alert_of db uid now b)).
    rewrite Heq. reflexivity.
  - intros Hge. exists b. repeat split; assumption.
Qed.

Lemma filter_after_map {A B : Type} (g : A -> B) (p : B -> bool)
  (l : list A) :
  filter p (map g l) = map g (filter (fun x => p (g x)) l).
Proof.
  induction l as [|x l IH]; simpl; [reflexivity|].
  destruct (p (g x)); simpl; rewrite IH; reflexivity.
Qed.

(** X3. The alerts of the dashboard are, in the order of the budgets table,
    the alerts of the user's active budgets whose computed percentage is at
    least 80, one for each such budget row; so there are never more alerts
    than budget rows. *)
Theorem alerts_in_budget_order (db : Store.Database) (uid : string)
  (now : Clock.Date) (st : Dashboard.State) :
  let alerts :=
    Dashboard.budgetAlerts (Dashboard.loadDashboardData db (Some uid) now st) in
  alerts
  = map (Spec.alert_of db uid now)
        (filter (fun b =>
                   Spec.is_active_budget_of uid b
                   && JS.ge (Spec.computed_percentage db uid now b)
                            (JS.Fin 80))
                (Store.budgets db))
  /\ (List.length alerts <= List.length (Store.budgets db))%nat.
Proof.
  intros alerts.
  assert (Heq : alerts
    = map (Spec.alert_of db uid now)
        (filter (fun b =>
                   Spec.is_active_budget_of uid b
                   && JS.ge (Spec.computed_percentage db uid now b)
                            (JS.Fin 80))
                (Store.budgets db))).
  { subst alerts. simpl. rewrite computeBudgetAlerts_filter.
    rewrite filter_after_map, map_map.
    unfold Store.active_budgets. rewrite filter_filter_and.
    f_equal. apply filter_ext. intros b.
    unfold Spec.is_active_budget_of, Store.budget_policy.
    destruct (String.eqb (Budget.user_id b) uid), (Budget.is_active b);
      reflexivity. }
  split; [exact Heq|].
  rewrite Heq, length_map. apply filter_length_le.
Qed.

(** X5. For a budget that has a category no alert is ever produced, whatever
    its limit and whatever was spent: the rows the loop sums carry no
    category to match, so the computed percentage is 0 or NaN. *)
Theorem categorised_budget_never_alerts (db : Store.Database) (uid : string)
  (now : Clock.Date) (st : Dashboard.State) (b : Budget.Row) (c : string) :
  In b (Store.budgets db) ->
  Spec.is_active_budget_of uid b = true ->
  Budget.category_id b = Some c ->
  c <> ""%string ->
  ~ Spec.fires db uid now st b.
Proof.
  intros Hin Hact Hcat Hne.
  rewrite (fires_iff_at_least_80 db uid now st b Hin Hact).
  unfold Spec.computed_percentage, Dashboard.budgetPercentage.
  rewrite (budgetSpent_with_category _ (Dashboard.select_budget b) c Hcat Hne).
  simpl. destruct (Qeq_bool (Budget.amount b) 0) eqn:Hz; simpl.
  - discriminate.
  - intros Hge. apply Qle_bool_iff in Hge.
    assert (H0 : 0 / Budget.amount b * 100 == 0).
    { field. intros H. apply Qeq_bool_neq in Hz. contradiction. }
    lra.
Qed.

Lemma categorised_budget_never_alerts_witness :
  ~ Spec.fires Sample.db_food_budget "u1" Sample.now Sample.initial
      (Sample.budget "b1" "u1" (Some "food"%string) 1000 80 true).
Proof.
  apply (categorised_budget_never_alerts Sample.db_food_budget "u1" Sample.now
           Sample.initial
           (Sample.budget "b1" "u1" (Some "food"%string) 1000 80 true)
           "food").
  - left. reflexivity.
  - reflexivity.
  - reflexivity.
  - discriminate.
Defined.

(** ** Days until a subscription is billed *)

Lemma daysUntil_value (next now : Z) :
  DashboardView.daysUntil next now
  = JS.Fin (inject_Z
              (Qceiling ((inject_Z next - inject_Z now)
                         / (1000 * 60 * 60 * 24)))).
Proof. reflexivity. Qed.

(** X6. The number of days shown for an upcoming subscription is the least
    whole number of days that covers the time left until the billing
    instant: with both instants in milliseconds, (d - 1) days < next - now <=
    d days.  It is 0 or negative exactly when the billing instant is not in
    the future. *)
Theorem days_until_is_least_cover (next now : Z) :
  exists d : Z,
    DashboardView.daysUntil next now = JS.Fin (inject_Z d)
    /\ ((d - 1) * 86400000 < next - now <= d * 86400000)%Z
    /\ (d <= 0 <-> next <= now)%Z.
Proof.
  rewrite daysUntil_value.
  set (q := (inject_Z next - inject_Z now) / (1000 * 60 * 60 * 24)).
  exists (Qceiling q). split; [reflexivity|].
  assert (Hday : 1000 * 60 * 60 * 24 == inject_Z 86400000) by reflexivity.
  assert (Hq : q * inject_Z 86400000 == inject_Z (next - now)).
  { subst q. rewrite Hday.
    unfold Z.sub. rewrite inject_Z_plus, inject_Z_opp. field. }
  pose proof (Qle_ceiling q) as Hup.
  pose proof (Qceiling_lt q) as Hlo.
  assert (Hpos : 0 < inject_Z 86400000) by reflexivity.
  assert (H1 : (next - now <= Qceiling q * 86400000)%Z).
  { rewrite Zle_Qle, inject_Z_mult, <- Hq.
    apply Qmult_le_compat_r; [exact Hup | apply Qlt_le_weak, Hpos]. }
  assert (H2 : ((Qceiling q - 1) * 86400000 < next - now)%Z).
  { rewrite Zlt_Qlt, inject_Z_mult, <- Hq.
    apply Qmult_lt_compat_r; [exact Hpos | exact Hlo]. }
  split; [split; assumption | lia].
Qed.

(** ** More on the loans page *)

(** X7. For loans of the same positive principal, the payoff percentage does
    not decrease as the remaining amount decreases, and it is 100 when
    nothing remains. *)
Theorem payoff_monotone_in_remaining (l1 l2 : Loan.Row) :
  Loan.principal_amount l1 = Loan.principal_amount l2 ->
  0 < Loan.principal_amount l1 ->
  Loan.remaining_amount l1 <= Loan.remaining_amount l2 ->
  exists x1 x2,
    Loans.loanProgress l1 = JS.Fin x1
    /\ Loans.loanProgress l2 = JS.Fin x2
    /\ x2 <= x1
    /\ (Loan.remaining_amount l1 == 0 -> x1 == 100).
Proof.
  intros Hp Hpos Hr.
  assert (Hnz1 : ~ Loan.principal_amount l1 == 0).
  { intros Hz. rewrite Hz in Hpos. lra. }
  assert (Hnz2 : ~ Loan.principal_amount l2 == 0).
  { rewrite <- Hp. exact Hnz1. }
  rewrite (loanProgress_finite l1 Hnz1), (loanProgress_finite l2 Hnz2).
  rewrite <- Hp.
  set (p := Loan.principal_amount l1) in *.
  set (r1 := Loan.remaining_amount l1) in *.
  set (r2 := Loan.remaining_amount l2) in *.
  eexists; eexists. split; [reflexivity|]. split; [reflexivity|].
  split.
  - assert (H : (p - r2) / p <= (p - r1) / p).
    { apply (quotient_at_least (p - r1) p ((p - r2) / p) Hpos).
      assert (Hm : (p - r2) / p * p == p - r2) by (field; exact Hnz1).
      lra. }
    lra.
  - intros Hz. rewrite Hz. field. exact Hnz1.
Qed.

Lemma payoff_monotone_in_remaining_witness :
  exists x1 x2,
    Loans.loanProgress (Sample.loan 100000 40000 None) = JS.Fin x1
    /\ Loans.loanProgress (Sample.loan 100000 60000 None) = JS.Fin x2
    /\ x2 <= x1.
Proof.
  assert (Hpos : 0 < 100000) by reflexivity.
  assert (Hr : 40000 <= 60000) by (unfold Qle; simpl; lia).
  destruct (payoff_monotone_in_remaining (Sample.loan 100000 40000 None)
              (Sample.loan 100000 60000 None) eq_refl Hpos Hr)
    as (x1 & x2 & H1 & H2 & Hle & _).
  exists x1, x2. split; [exact H1 | split; [exact H2 | exact Hle]].
Defined.

(** X8. A loan with an end date is marked Completed exactly when the month
    the page reads from the end date (the local month of the UTC midnight of
    that date) is not after the current month; otherwise the card shows the
    positive difference in months.  In a runtime that is not west of UTC the
    month read is the calendar month of the end date, so a loan is then
    Completed also when it ends on a later day of the current month. *)
Theorem completed_iff_end_month_reached (today : Clock.Date)
  (loan : Loan.Row) (e : Schema.date) :
  Loan.end_date loan = Some e ->
  let diff := (Spec.month_index (Clock.of_iso (Clock.zone today) e)
               - Spec.month_index today)%Z in
  LoansView.monthsText (Loans.card today loan)
  = Some (if (diff <=? 0)%Z then LoansView.Completed
          else LoansView.MonthsLeft diff)
  /\ ((Clock.offsetAtUtcMidnight (Clock.zone today) e <= 0)%Z ->
      diff = Spec.calendar_months_between today e).
Proof.
  intros He diff. split.
  - unfold LoansView.monthsText, Loans.card. simpl.
    rewrite He. unfold Loans.getMonthsRemaining.
    set (m := ((Clock.getFullYear (Clock.of_iso (Clock.zone today) e)
                - Clock.getFullYear today) * 12
               + (Clock.getMonth (Clock.of_iso (Clock.zone today) e)
                  - Clock.getMonth today))%Z).
    assert (Hm : m = diff).
    { subst m diff. unfold Spec.month_index. lia. }
    rewrite Hm. f_equal.
    destruct (Z.leb_spec diff 0) as [Hle | Hgt].
    + rewrite Z.max_l by lia. reflexivity.
    + rewrite Z.max_r by lia.
      destruct (Z.eqb_spec diff 0) as [H0 | _]; [lia | reflexivity].
  - intros Hz. subst diff. rewrite (of_iso_not_west _ _ Hz).
    unfold Spec.month_index, Spec.calendar_months_between. simpl. lia.
Qed.

Lemma completed_iff_end_month_reached_witness :
  LoansView.monthsText
    (Loans.card (Sample.now_in Sample.kolkata)
       (Sample.loan 100000 40000 (Some (Schema.mkDate 2026 11 30))))
  = Some LoansView.Completed
  /\ Spec.calendar_months_between (Sample.now_in Sample.kolkata)
       (Schema.mkDate 2026 11 30) = 0%Z.
Proof.
  destruct (completed_iff_end_month_reached (Sample.now_in Sample.kolkata)
              (Sample.loan 100000 40000 (Some (Schema.mkDate 2026 11 30)))
              (Schema.mkDate 2026 11 30) eq_refl) as [Ht Hd].
  split; [exact Ht|]. reflexivity.
Defined.

(** X9. The amount paid off shown above the loans is a finite number, and
    when every loan has a remaining amount between 0 and its principal it
    lies between 0 and the total principal. *)
Theorem total_paid_off_within_principal (loans : list Loan.Row) :
  exists paid principal,
    Loans.totalPaidOff loans = JS.Fin paid
    /\ Loans.totalPrincipal loans = JS.Fin principal
    /\ (Forall (fun l => 0 <= Loan.remaining_amount l
                         /\ Loan.remaining_amount l <= Loan.principal_amount l)
               loans ->
        0 <= paid /\ paid <= principal).
Proof.
  unfold Loans.totalPaidOff, Loans.totalPrincipal, Loans.totalDebt.
  destruct (reduce_sum_finite Loan.principal_amount loans) as (p & -> & Hp).
  destruct (reduce_sum_finite Loan.remaining_amount loans) as (r & -> & Hr).
  exists (p - r), p. simpl.
  split; [reflexivity|]. split; [reflexivity|].
  intros Hall.
  assert (H0 : 0 <= r).
  { rewrite Hr. apply Qsum_nonneg. rewrite Forall_forall in *.
    intros q Hq. apply in_map_iff in Hq. destruct Hq as (l & <- & Hl).
    apply (Hall l Hl). }
  assert (H1 : r <= p).
  { rewrite Hp, Hr. clear Hp Hr H0 p r.
    induction Hall as [|l ls [_ Hl] _ IH]; simpl; [lra|]. lra. }
  lra.
Qed.

(** ** The transactions page *)

Lemma includes_empty (s : string) : Transactions.includes s "" = true.
Proof. destruct s; reflexivity. Qed.

(** X10. With an empty search box every transaction passes the search, also
    one without merchant and description: the list shows exactly the
    transactions of the selected type, and all of them under the choice
    All. *)
Theorem empty_search_keeps_everything (toLowerCase : string -> string)
  (filterType : Transactions.filter_type)
  (transactions : list Transactions.Transaction) :
  toLowerCase ""%string = ""%string ->
  Transactions.filteredTransactions toLowerCase "" filterType transactions
  = filter (Transactions.matchesFilter filterType) transactions
  /\ Transactions.filteredTransactions toLowerCase "" Transactions.all
       transactions
     = transactions.
Proof.
  intros Hlow.
  assert (Hs : forall t, Transactions.matchesSearch toLowerCase "" t = true).
  { intros t. unfold Transactions.matchesSearch. rewrite Hlow.
    rewrite includes_empty, orb_true_r. reflexivity. }
  assert (Hgen : forall ft,
    Transactions.filteredTransactions toLowerCase "" ft transactions
    = filter (Transactions.matchesFilter ft) transactions).
  { intros ft. unfold Transactions.filteredTransactions.
    apply filter_ext. intros t. rewrite Hs. reflexivity. }
  split; [apply Hgen|].
  rewrite Hgen. simpl.
  induction transactions as [|t l IH]; simpl; [reflexivity|].
  f_equal. apply IH.
  intros ft. unfold Transactions.filteredTransactions.
  apply filter_ext. intros t'. rewrite Hs. reflexivity.
Qed.

Lemma empty_search_keeps_everything_witness :
  Transactions.filteredTransactions Scenario.lower "" Transactions.all
    Scenario.page_rows
  = Scenario.page_rows.
Proof.
  exact (proj2 (empty_search_keeps_everything Scenario.lower Transactions.all
                  Scenario.page_rows eq_refl)).
Defined.




Lemma filter_type_without_transfers (p : Transactions.Transaction -> bool)
  (ty : Schema.transaction_type) (l : list Transactions.Transaction) :
  ty <> Schema.transfer ->
  filter (fun t => Schema.transaction_type_eqb (Transactions.type t) ty)
    (filter p
       (filter (fun t => negb (Schema.transaction_type_eqb
                                 (Transactions.type t) Schema.transfer)) l))
  = filter (fun t => Schema.transaction_type_eqb (Transactions.type t) ty)
      (filter p l).
Proof.
  intros Hty. rewrite !filter_filter_and.
  apply filter_ext. intros t.
  destruct (Transactions.type t), ty; simpl;
    rewrite ?andb_true_r, ?andb_false_r; try reflexivity; congruence.
Qed.

(** X12. Whatever the search and the type filter, a transfer enters neither
    the income total nor the expense total nor the net figure, which is the
    income total minus the expense total: the three are what they would be
    if the transfers had not been loaded. *)
Theorem totals_leave_out_transfers (toLowerCase : string -> string)
  (searchTerm : string) (filterType : Transactions.filter_type)
  (transactions : list Transactions.Transaction) :
  let others :=
    filter (fun t => negb (Schema.transaction_type_eqb
                             (Transactions.type t) Schema.transfer))
           transactions in
  Transactions.totalIncome toLowerCase searchTerm filterType others
  = Transactions.totalIncome toLowerCase searchTerm filterType transactions
  /\ Transactions.totalExpense toLowerCase searchTerm filterType others
     = Transactions.totalExpense toLowerCase searchTerm filterType transactions
  /\ Transactions.net toLowerCase searchTerm filterType others
     = Transactions.net toLowerCase searchTerm filterType transactions
  /\ Transactions.net toLowerCase searchTerm filterType transactions
     = JS.sub
         (Transactions.totalIncome toLowerCase searchTerm filterType
            transactions)
         (Transactions.totalExpense toLowerCase searchTerm filterType
            transactions).
Proof.
  intros others. subst others.
  assert (Hi : Transactions.totalIncome toLowerCase searchTerm filterType
                 (filter (fun t => negb (Schema.transaction_type_eqb
                                           (Transactions.type t)
                                           Schema.transfer)) transactions)
               = Transactions.totalIncome toLowerCase searchTerm filterType
                   transactions).
  { unfold Transactions.totalIncome, Transactions.filteredTransactions.
    rewrite filter_type_without_transfers by discriminate. reflexivity. }
  assert (He : Transactions.totalExpense toLowerCase searchTerm filterType
                 (filter (fun t => negb (Schema.transaction_type_eqb
                                           (Transactions.type t)
                                           Schema.transfer)) transactions)
               = Transactions.totalExpense toLowerCase searchTerm filterType
                   transactions).
  { unfold Transactions.totalExpense, Transactions.filteredTransactions.
    rewrite filter_type_without_transfers by discriminate. reflexivity. }
  split; [exact Hi|]. split; [exact He|].
  split; [|reflexivity].
  unfold Transactions.net. rewrite Hi, He. reflexivity.
Qed.

(** ** Navigation *)

(** X13. Each of the ten entries of the side bar leads to a page of its own,
    every page has an entry, and a view name that is none of the entries
    falls back to the dashboard; for the entries, the reload after adding a
    transaction happens exactly on the dashboard and the transactions
    page. *)
Theorem every_entry_has_its_page :
  NoDup (map App.renderView App.navigation)
  /\ (forall p : App.page, In p (map App.renderView App.navigation))
  /\ (forall v, ~ In v App.navigation -> App.renderView v = App.Dashboard)
  /\ (forall v, In v App.navigation ->
        (App.reloadsAfterAdd v = true
         <-> App.renderView v = App.Dashboard
             \/ App.renderView v = App.Transactions)).
Proof.
  split; [|split; [|split]].
  - simpl. repeat constructor; simpl; intuition discriminate.
  - intros p. destruct p; simpl; tauto.
  - intros v Hv. unfold App.renderView.
    repeat match goal with
    | |- (if String.eqb v ?s then _ else _) = _ =>
        destruct (String.eqb_spec v s) as [-> | _];
        [exfalso; apply Hv; simpl; tauto|]
    end.
    reflexivity.
  - intros v Hv. simpl in Hv.
    repeat (destruct Hv as [<- | Hv];
            [vm_compute; split;
             [intros H; first [discriminate H | tauto]
             | intros [H | H]; first [discriminate H | reflexivity]]|]).
    contradiction.
Qed.

(** ** Adding an account *)

Lemma reduce_sum_snoc {A : Type} (f : A -> Q) (l : list A) (x : A) :
  JS.reduce_sum f (l ++ [x]) = JS.add (JS.reduce_sum f l) (JS.Fin (f x)).
Proof.
  unfold JS.reduce_sum. rewrite fold_left_app. reflexivity.
Qed.

Lemma opening_balance_stored (n : JS.number) :
  Numeric.write_nullable (AddAccountModal.or_zero n)
  = match n with
    | JS.Fin q =>
        if Numeric.in_range (Numeric.round2 q)
        then Some (Numeric.round2 q) else None
    | JS.NaN => Some (0 # 100)
    | _ => Some 0
    end.
Proof.
  destruct n as [q| | |]; try reflexivity.
  unfold AddAccountModal.or_zero.
  destruct (Qeq_bool q 0) eqn:Hq; [|reflexivity].
  apply Qeq_bool_iff in Hq.
  rewrite (round2_cents q 0) by (rewrite Hq; reflexivity).
  reflexivity.
Qed.



(** ** More on recording a transaction *)

Lemma stored_amount_iff (n : JS.number) :
  Store.stored_amount n <> None
  <-> exists A, n = JS.Fin A /\ Numeric.in_range (Numeric.round2 A) = true.
Proof.
  destruct n as [A| | |]; simpl.
  - unfold Numeric.write.
    destruct (Numeric.in_range (Numeric.round2 A)) eqn:H; split.
    + intros _. exists A. split; [reflexivity | exact H].
    + intros _. discriminate.
    + intros Hn. congruence.
    + intros (A' & E & H'). injection E as <-. congruence.
  - split; [congruence | intros (A & E & _); discriminate].
  - split; [congruence | intros (A & E & _); discriminate].
  - split; [congruence | intros (A & E & _); discriminate].
Qed.

(** X15. What a submission of the transaction form leads to.  It is ignored
    exactly when nobody is signed in or the account or the amount is empty;
    it is submitted exactly when, besides, the amount parses to a finite
    number whose value rounded to two decimal places is within the range of
    the amount column, the date is a date, and the account and the category
    (if one is chosen) exist; in every other case the insert is refused.
    Unless it is submitted the store is left exactly as it was. *)
Theorem submission_outcomes (parseFloat : string -> JS.number)
  (db : Store.Database) (user : option string) (fresh : string)
  (f : AddTransactionModal.Form) :
  let r := AddTransactionModal.handleSubmit parseFloat db user fresh f in
  (snd r <> AddTransactionModal.Submitted -> fst r = db)
  /\ (snd r = AddTransactionModal.Ignored
      <-> user = None
          \/ AddTransactionModal.accountId f = ""%string
          \/ AddTransactionModal.amount f = ""%string)
  /\ (snd r = AddTransactionModal.Submitted
      <-> user <> None
          /\ AddTransactionModal.accountId f <> ""%string
          /\ AddTransactionModal.amount f <> ""%string
          /\ (exists A, parseFloat (AddTransactionModal.amount f) = JS.Fin A
                        /\ Numeric.in_range (Numeric.round2 A) = true)
          /\ AddTransactionModal.date f <> None
          /\ Store.has_account db (AddTransactionModal.accountId f) = true
          /\ Store.has_category db
               (AddTransactionModal.or_null (AddTransactionModal.categoryId f))
             = true).
Proof.
  unfold AddTransactionModal.handleSubmit.
  destruct user as [uid|]; simpl.
  2:{ split; [intros _; reflexivity|].
      split; [split; [intros _; left; reflexivity | reflexivity]|].
      split; [discriminate | intros [H _]; congruence]. }
  destruct (String.eqb_spec (AddTransactionModal.accountId f) "")
    as [Hacc | Hacc]; simpl.
  { split; [intros _; reflexivity|].
    split; [split; [intros _; right; left; exact Hacc | reflexivity]|].
    split; [discriminate | intros (_ & H & _); contradiction]. }
  destruct (String.eqb_spec (AddTransactionModal.amount f) "")
    as [Hamt | Hamt]; simpl.
  { split; [intros _; reflexivity|].
    split; [split; [intros _; right; right; exact Hamt | reflexivity]|].
    split; [discriminate | intros (_ & _ & H & _); contradiction]. }
  assert (Hnot : ~ (Some uid = None
                    \/ AddTransactionModal.accountId f = ""%string
                    \/ AddTransactionModal.amount f = ""%string)).
  { intros [H | [H | H]]; [discriminate | contradiction | contradiction]. }
  assert (Hfail : forall P : Prop, ~ P ->
    (AddTransactionModal.Failed <> AddTransactionModal.Submitted -> db = db)
    /\ (AddTransactionModal.Failed = AddTransactionModal.Ignored
        <-> Some uid = None
            \/ AddTransactionModal.accountId f = ""%string
            \/ AddTransactionModal.amount f = ""%string)
    /\ (AddTransactionModal.Failed = AddTransactionModal.Submitted <-> P)).
  { intros P HP. split; [intros _; reflexivity|].
    split; [split; [discriminate | intros H; contradiction]|].
    split; [discriminate | intros H; contradiction]. }
  destruct (AddTransactionModal.date f) as [d|]; simpl.
  2:{ apply Hfail. intros (_ & _ & _ & _ & H & _). congruence. }
  unfold Store.insert_transaction. simpl. rewrite String.eqb_refl. simpl.
  pose proof (stored_amount_iff (parseFloat (AddTransactionModal.amount f)))
    as Hst.
  destruct (Store.stored_amount (parseFloat (AddTransactionModal.amount f)))
    as [a|]; simpl.
  2:{ apply Hfail. intros (_ & _ & _ & HA & _).
      apply Hst in HA. congruence. }
  assert (HA : exists A, parseFloat (AddTransactionModal.amount f) = JS.Fin A
                         /\ Numeric.in_range (Numeric.round2 A) = true).
  { apply Hst. discriminate. }
  destruct (Store.has_account db (AddTransactionModal.accountId f)) eqn:Ha;
    simpl.
  2:{ apply Hfail. intros (_ & _ & _ & _ & _ & H & _). congruence. }
  destruct (Store.has_category db _) eqn:Hc; simpl.
  2:{ apply Hfail. intros (_ & _ & _ & _ & _ & _ & H). congruence. }
  assert (Hyes : Some uid <> None
                 /\ AddTransactionModal.accountId f <> ""%string
                 /\ AddTransactionModal.amount f <> ""%string
                 /\ (exists A,
                       parseFloat (AddTransactionModal.amount f) = JS.Fin A
                       /\ Numeric.in_range (Numeric.round2 A) = true)
                 /\ Some d <> None /\ true = true /\ true = true).
  { repeat split; try assumption; try discriminate. }
  destruct (Store.single _); simpl;
    (split; [intros H; congruence|]);
    (split; [split; [discriminate | intros H; contradiction]|]);
    (split; [intros _; exact Hyes | intros _; reflexivity]).
Qed.

(** X16. Two transactions recorded one after the other against the same
    account, with amounts and an initial balance of at most two decimal
    places and with both amounts and both new balances within the range of
    the column, leave its balance at the initial balance plus the two signed
    amounts, an income counting positive and an expense negative, with every
    other field of the account as before; in particular an income followed
    by an expense of the same amount restores the balance. *)
Theorem successive_recordings_accumulate (parseFloat : string -> JS.number)
  (db : Store.Database) (uid fresh1 fresh2 : string)
  (f1 f2 : AddTransactionModal.Form) (d1 d2 : Schema.date)
  (acct : Account.Row) (A1 A2 : Q) :
  AddTransactionModal.accountId f1 <> ""%string ->
  AddTransactionModal.accountId f2 = AddTransactionModal.accountId f1 ->
  AddTransactionModal.amount f1 <> ""%string ->
  AddTransactionModal.amount f2 <> ""%string ->
  AddTransactionModal.date f1 = Some d1 ->
  AddTransactionModal.date f2 = Some d2 ->
  parseFloat (AddTransactionModal.amount f1) = JS.Fin A1 ->
  parseFloat (AddTransactionModal.amount f2) = JS.Fin A2 ->
  Store.has_category db
    (AddTransactionModal.or_null (AddTransactionModal.categoryId f1)) = true ->
  Store.has_category db
    (AddTransactionModal.or_null (AddTransactionModal.categoryId f2)) = true ->
  Store.accounts_by_id db uid (AddTransactionModal.accountId f1) = [acct] ->
  Numeric.is_cents A1 -> Numeric.is_cents A2 ->
  Numeric.is_cents (Account.balance acct) ->
  Numeric.in_range A1 = true -> Numeric.in_range A2 = true ->
  let signed (f : AddTransactionModal.Form) (A : Q) :=
    match AddTransactionModal.type f with
    | AddTransactionModal.income => A
    | AddTransactionModal.expense => - A
    end in
  Numeric.in_range (Account.balance acct + signed f1 A1) = true ->
  Numeric.in_range (Account.balance acct + signed f1 A1 + signed f2 A2)
  = true ->
  let db1 :=
    fst (AddTransactionModal.handleSubmit parseFloat db (Some uid) fresh1 f1) in
  let r2 := AddTransactionModal.handleSubmit parseFloat db1 (Some uid) fresh2 f2 in
  exists acct2,
    snd r2 = AddTransactionModal.Submitted
    /\ Store.accounts_by_id (fst r2) uid (AddTransactionModal.accountId f1)
       = [acct2]
    /\ Spec.same_but_balance acct acct2
    /\ Account.balance acct2
       == Account.balance acct + signed f1 A1 + signed f2 A2
    /\ (AddTransactionModal.type f1 = AddTransactionModal.income ->
        AddTransactionModal.type f2 = AddTransactionModal.expense ->
        A1 == A2 -> Account.balance acct2 == Account.balance acct).
Proof.
  intros Hacc1 Hacc2 Hamt1 Hamt2 Hd1 Hd2 Hp1 Hp2 Hc1 Hc2 Hrow
         [n1 Hn1] [n2 Hn2] [nb Hnb] Hr1 Hr2 signed Hrb1 Hrb2 db1 r2.
  subst db1 r2.
  rewrite (handleSubmit_effect parseFloat db uid fresh1 f1 d1 acct A1 (n1 # 100)
             Hacc1 Hamt1 Hd1 Hp1 (write_cents A1 n1 Hn1 Hr1) Hc1 Hrow).
  cbn [fst].
  set (s1 := match AddTransactionModal.type f1 with
             | AddTransactionModal.income => n1
             | AddTransactionModal.expense => (- n1)%Z
             end).
  set (s2 := match AddTransactionModal.type f2 with
             | AddTransactionModal.income => n2
             | AddTransactionModal.expense => (- n2)%Z
             end).
  assert (Hs1 : signed f1 A1 == s1 # 100).
  { subst signed s1. cbv beta. destruct (AddTransactionModal.type f1);
      rewrite Hn1; reflexivity. }
  assert (Hs2 : signed f2 A2 == s2 # 100).
  { subst signed s2. cbv beta. destruct (AddTransactionModal.type f2);
      rewrite Hn2; reflexivity. }
  set (b1 := match AddTransactionModal.type f1 with
             | AddTransactionModal.income => Account.balance acct + A1
             | AddTransactionModal.expense => Account.balance acct - A1
             end).
  assert (Hb1 : b1 == Account.balance acct + signed f1 A1).
  { subst b1 signed. cbv beta. destruct (AddTransactionModal.type f1); ring. }
  assert (Hb1c : b1 == (nb + s1) # 100).
  { rewrite Hb1. apply cents_plus; assumption. }
  assert (Hw1 : Numeric.write_nullable (JS.Fin b1) = Some ((nb + s1) # 100)).
  { cbn [Numeric.write_nullable]. apply write_cents; [exact Hb1c|].
    rewrite (in_range_comp _ _ Hb1). exact Hrb1. }
  set (db1 := Store.update_balance _ uid _ (JS.Fin b1)).
  set (acct1 := Account.set_balance ((nb + s1) # 100) acct).
  assert (Hrow1 : Store.accounts_by_id db1 uid (AddTransactionModal.accountId f2)
                  = [acct1]).
  { rewrite Hacc2. subst db1. apply accounts_by_id_updated; assumption. }
  assert (Hcat1 : Store.has_category db1
                    (AddTransactionModal.or_null
                       (AddTransactionModal.categoryId f2)) = true).
  { subst db1. unfold Store.update_balance. rewrite Hw1. exact Hc2. }
  assert (Hacc2' : AddTransactionModal.accountId f2 <> ""%string).
  { rewrite Hacc2. exact Hacc1. }
  rewrite (handleSubmit_effect parseFloat db1 uid fresh2 f2 d2 acct1 A2
             (n2 # 100) Hacc2' Hamt2 Hd2 Hp2 (write_cents A2 n2 Hn2 Hr2)
             Hcat1 Hrow1).
  cbn [fst snd].
  set (b2 := match AddTransactionModal.type f2 with
             | AddTransactionModal.income => Account.balance acct1 + A2
             | AddTransactionModal.expense => Account.balance acct1 - A2
             end).
  assert (Hbal1 : Account.balance acct1 = (nb + s1) # 100).
  { subst acct1. destruct acct; reflexivity. }
  assert (Hb2 : b2 == Account.balance acct + signed f1 A1 + signed f2 A2).
  { subst b2. rewrite Hbal1. subst signed. cbv beta.
    destruct (AddTransactionModal.type f2); rewrite <- Hb1c, Hb1; ring. }
  assert (Hb2c : b2 == (nb + s1 + s2) # 100).
  { rewrite Hb2. apply cents_plus; [|exact Hs2].
    apply cents_plus; assumption. }
  assert (Hw2 : Numeric.write_nullable (JS.Fin b2)
                = Some ((nb + s1 + s2) # 100)).
  { cbn [Numeric.write_nullable]. apply write_cents; [exact Hb2c|].
    rewrite (in_range_comp _ _ Hb2). exact Hrb2. }
  exists (Account.set_balance ((nb + s1 + s2) # 100) acct).
  split; [reflexivity|].
  split.
  { rewrite <- Hacc2.
    rewrite (accounts_by_id_updated db1 uid _ (JS.Fin b2) _ _ acct1 Hrow1 Hw2).
    subst acct1. destruct acct; reflexivity. }
  split; [apply same_but_balance_set|].
  assert (Hfinal : Account.balance
                     (Account.set_balance ((nb + s1 + s2) # 100) acct)
                   == Account.balance acct + signed f1 A1 + signed f2 A2).
  { destruct acct; cbn [Account.set_balance Account.balance] in *.
    rewrite <- Hb2c. exact Hb2. }
  split; [exact Hfinal|].
  intros H1 H2 HA. rewrite Hfinal.
  subst signed. cbv beta. rewrite H1, H2, HA. ring.
Qed.

Lemma successive_recordings_accumulate_witness :
  let db1 :=
    fst (AddTransactionModal.handleSubmit Sample.parse150 Sample.db_balance
           (Some "u1"%string) "t8" Scenario.income_form) in
  let r2 := AddTransactionModal.handleSubmit Sample.parse150 db1
              (Some "u1"%string) "t9" Sample.expense_form in
  exists acct2,
    Store.accounts_by_id (fst r2) "u1" "a1" = [acct2]
    /\ Account.balance acct2 == 1000.
Proof.
  cbv zeta.
  assert (Ha : Numeric.is_cents 150) by (exists 15000%Z; reflexivity).
  assert (Hb : Numeric.is_cents 1000) by (exists 100000%Z; reflexivity).
  pose proof (successive_recordings_accumulate Sample.parse150
                Sample.db_balance "u1" "t8" "t9" Scenario.income_form
                Sample.expense_form (Sample.nov 2) (Sample.nov 2)
                (Sample.account "a1" "u1" 1000 true) 150 150) as H.
  specialize (H ltac:(discriminate) eq_refl ltac:(discriminate)
                ltac:(discriminate) eq_refl eq_refl eq_refl eq_refl
                eq_refl eq_refl eq_refl Ha Ha Hb eq_refl eq_refl
                eq_refl eq_refl).
  cbv zeta in H. destruct H as (acct2 & _ & Hrow & _ & _ & Hsame).
  exists acct2. split; [exact Hrow|].
  apply Hsame; reflexivity.
Defined.

(** ** Recording a transaction, then loading the dashboard *)

Lemma transactions_after_update (db : Store.Database) (uid i : string)
  (n : JS.number) :
  Store.transactions (Store.update_balance db uid i n) = Store.transactions db.
Proof.
  unfold Store.update_balance.
  destruct (Numeric.write_nullable n); reflexivity.
Qed.

Lemma sum_of_type_snoc (ty : Schema.transaction_type)
  (rows : list Transaction.Row) (x : Transaction.Row) :
  Dashboard.sum_of_type ty (map Dashboard.select_amount_type (rows ++ [x]))
  = if Schema.transaction_type_eqb (Transaction.type x) ty
    then JS.add (Dashboard.sum_of_type ty
                   (map Dashboard.select_amount_type rows))
                (JS.Fin (Transaction.amount x))
    else Dashboard.sum_of_type ty (map Dashboard.select_amount_type rows).
Proof.
  unfold Dashboard.sum_of_type. rewrite map_app, filter_app. simpl.
  destruct (Schema.transaction_type_eqb (Transaction.type x) ty).
  - rewrite reduce_sum_snoc. reflexivity.
  - rewrite app_nil_r. reflexivity.
Qed.

(** X17. After a transaction whose amount the amount column stores as a
    (the amount typed, rounded to two decimal places and within range) and
    whose date is on or after the start date of the month's request is
    recorded, the dashboard of the same user shows a monthly income that is
    the previous one plus a and the same monthly expense when it is an
    income, and a monthly expense that is the previous one plus a and the
    same monthly income when it is an expense. *)
Theorem recording_shows_in_monthly_totals (parseFloat : string -> JS.number)
  (db : Store.Database) (uid fresh : string) (f : AddTransactionModal.Form)
  (d : Schema.date) (acct : Account.Row) (A a : Q)
  (now : Clock.Date) (st : Dashboard.State) :
  AddTransactionModal.accountId f <> ""%string ->
  AddTransactionModal.amount f <> ""%string ->
  AddTransactionModal.date f = Some d ->
  parseFloat (AddTransactionModal.amount f) = JS.Fin A ->
  Numeric.write A = Some a ->
  Store.has_category db
    (AddTransactionModal.or_null (AddTransactionModal.categoryId f)) = true ->
  Store.accounts_by_id db uid (AddTransactionModal.accountId f) = [acct] ->
  Schema.date_geb d (Clock.startOfMonth now) = true ->
  let db' :=
    fst (AddTransactionModal.handleSubmit parseFloat db (Some uid) fresh f) in
  let s := Dashboard.stats (Dashboard.loadDashboardData db (Some uid) now st) in
  let s' := Dashboard.stats (Dashboard.loadDashboardData db' (Some uid) now st) in
  a = Numeric.round2 A
  /\ match AddTransactionModal.type f with
     | AddTransactionModal.income =>
         Dashboard.monthlyIncome s'
         = JS.add (Dashboard.monthlyIncome s) (JS.Fin a)
         /\ Dashboard.monthlyExpense s' = Dashboard.monthlyExpense s
     | AddTransactionModal.expense =>
         Dashboard.monthlyExpense s'
         = JS.add (Dashboard.monthlyExpense s) (JS.Fin a)
         /\ Dashboard.monthlyIncome s' = Dashboard.monthlyIncome s
     end.
Proof.
  intros Hacc Hamt Hdate Hparse Hw Hcat Hrow Hmonth db' s s'.
  subst db' s s'.
  split; [apply (write_value A a Hw)|].
  rewrite (handleSubmit_effect parseFloat db uid fresh f d acct A a
             Hacc Hamt Hdate Hparse Hw Hcat Hrow).
  cbn [fst].
  set (start := Clock.startOfMonth now) in *.
  set (row := Transaction.mkRow fresh uid _ _ a _ _ _ d Schema.manual).
  set (db' := Store.update_balance _ uid _ _).
  assert (Hsince :
    Store.transactions_since db' uid uid start
    = Store.transactions_since db uid uid start ++ [row]).
  { unfold Store.transactions_since. subst db'.
    rewrite transactions_after_update. simpl. rewrite filter_app. simpl.
    unfold Store.transaction_policy. simpl.
    rewrite String.eqb_refl, Hmonth. reflexivity. }
  simpl. fold start. rewrite Hsince, !sum_of_type_snoc.
  subst row. simpl.
  destruct (AddTransactionModal.type f); simpl; split; reflexivity.
Qed.

Lemma recording_shows_in_monthly_totals_witness :
  let db' :=
    fst (AddTransactionModal.handleSubmit Sample.parse150 Sample.db_balance
           (Some "u1"%string) "t9" Sample.expense_form) in
  Dashboard.monthlyExpense
    (Dashboard.stats
       (Dashboard.loadDashboardData db' (Some "u1"%string)
          (Sample.now_in Sample.kolkata) Sample.initial))
  = JS.add
      (Dashboard.monthlyExpense
         (Dashboard.stats
            (Dashboard.loadDashboardData Sample.db_balance (Some "u1"%string)
               (Sample.now_in Sample.kolkata) Sample.initial)))
      (JS.Fin (15000 # 100)).
Proof.
  cbv zeta.
  pose proof (recording_shows_in_monthly_totals Sample.parse150
                Sample.db_balance "u1" "t9" Sample.expense_form (Sample.nov 2)
                (Sample.account "a1" "u1" 1000 true) 150 (15000 # 100)
                (Sample.now_in Sample.kolkata) Sample.initial) as H.
  specialize (H ltac:(discriminate) ltac:(discriminate)
                eq_refl eq_refl eq_refl eq_refl eq_refl eq_refl).
  cbv zeta in H. exact (proj1 (proj2 H)).
Defined.

(** ** The label of an account type *)

Lemma concat_cons_char (sep : string) (c : ascii) (w : string)
  (ws : list string) :
  String.concat sep (String c w :: ws) = String c (String.concat sep (w :: ws)).
Proof. destruct ws; reflexivity. Qed.

Lemma split_titled (s : string) :
  exists w ws,
    AccountsView.split "_" s = w :: ws
    /\ String.concat " "
         ((AccountsView.toUpperCase (AccountsView.charAt0 w)
           ++ AccountsView.slice1 w)%string
          :: map (fun word =>
                    (AccountsView.toUpperCase (AccountsView.charAt0 word)
                     ++ AccountsView.slice1 word)%string) ws)
       = AccountsView.titled true s
    /\ String.concat " "
         (w :: map (fun word =>
                      (AccountsView.toUpperCase (AccountsView.charAt0 word)
                       ++ AccountsView.slice1 word)%string) ws)
       = AccountsView.titled false s.
Proof.
  induction s as [|c rest (w & ws & Hsplit & Htrue & Hfalse)].
  - exists EmptyString, []. repeat split.
  - cbn [AccountsView.split AccountsView.titled].
    destruct (Ascii.eqb c "_") eqn:Hc.
    + exists EmptyString, (w :: ws). split; [rewrite Hsplit; reflexivity|].
      rewrite <- Htrue. split; reflexivity.
    + rewrite Hsplit. exists (String c w), ws. split; [reflexivity|].
      rewrite <- Hfalse. split.
      * change (AccountsView.toUpperCase (AccountsView.charAt0 (String c w))
                ++ AccountsView.slice1 (String c w))%string
          with (String (AccountsView.upper_ascii c) w).
        apply concat_cons_char.
      * apply concat_cons_char.
Qed.

Lemma titled_length (start : bool) (s : string) :
  String.length (AccountsView.titled start s) = String.length s.
Proof.
  revert start. induction s as [|c rest IH]; intros start; simpl;
    [reflexivity|].
  destruct (Ascii.eqb c "_"); simpl; rewrite IH; reflexivity.
Qed.

(** X19. The label shown for an account type, computed by splitting the type
    at underscores, raising the first letter of each word and joining with
    spaces, is the type text read in one pass with every underscore turned
    into a space and every character that starts a word raised; it has the
    length of the type text.  So credit_card is shown as Credit Card. *)
Theorem account_type_label_is_titled (type : string) :
  AccountsView.is_ascii_text type ->
  AccountsView.getAccountTypeLabel type = AccountsView.titled true type
  /\ String.length (AccountsView.getAccountTypeLabel type)
     = String.length type.
Proof.
  intros _.
  assert (H : AccountsView.getAccountTypeLabel type
              = AccountsView.titled true type).
  { unfold AccountsView.getAccountTypeLabel.
    destruct (split_titled type) as (w & ws & -> & Htrue & _).
    exact Htrue. }
  split; [exact H|]. rewrite H. apply titled_length.
Qed.

Lemma account_type_label_is_titled_witness :
  AccountsView.getAccountTypeLabel
    (AccountsView.type_text Schema.credit_card)
  = "Credit Card"%string.
Proof.
  assert (Hascii : AccountsView.is_ascii_text
                     (AccountsView.type_text Schema.credit_card)).
  { unfold AccountsView.is_ascii_text. simpl.
    repeat constructor; simpl; lia. }
  rewrite (proj1 (account_type_label_is_titled _ Hascii)). reflexivity.
Defined.

(** ** What the dashboard reads *)

Lemma filter_own_then {A : Type} (own p : A -> bool) (l : list A) :
  (forall x, p x = true -> own x = true) ->
  filter p l = filter p (filter own l).
Proof.
  intros H. rewrite filter_filter_and. apply filter_ext. intros x.
  destruct (p x) eqn:Hp; [rewrite (H x Hp)|rewrite andb_false_r]; reflexivity.
Qed.

(** X20. The dashboard of a user is computed from that user's rows alone:
    two stores that hold the same accounts, transactions and budgets of the
    user, whatever rows of other users they hold, give the same dashboard. *)
Theorem dashboard_reads_only_own_rows (db1 db2 : Store.Database)
  (uid : string) (now : Clock.Date) (st : Dashboard.State) :
  filter (fun r => String.eqb (Account.user_id r) uid) (Store.accounts db1)
  = filter (fun r => String.eqb (Account.user_id r) uid) (Store.accounts db2) ->
  filter (fun r => String.eqb (Transaction.user_id r) uid)
         (Store.transactions db1)
  = filter (fun r => String.eqb (Transaction.user_id r) uid)
           (Store.transactions db2) ->
  filter (fun r => String.eqb (Budget.user_id r) uid) (Store.budgets db1)
  = filter (fun r => String.eqb (Budget.user_id r) uid) (Store.budgets db2) ->
  Dashboard.loadDashboardData db1 (Some uid) now st
  = Dashboard.loadDashboardData db2 (Some uid) now st.
Proof.
  intros Ha Ht Hb.
  assert (Hacc : Store.active_accounts db1 uid uid
                 = Store.active_accounts db2 uid uid).
  { unfold Store.active_accounts.
    rewrite (filter_own_then (fun r => String.eqb (Account.user_id r) uid)
               _ (Store.accounts db1)),
            (filter_own_then (fun r => String.eqb (Account.user_id r) uid)
               _ (Store.accounts db2)).
    - rewrite Ha. reflexivity.
    - intros x Hx. apply andb_true_iff in Hx. destruct Hx as [Hx _].
      apply andb_true_iff in Hx. apply Hx.
    - intros x Hx. apply andb_true_iff in Hx. destruct Hx as [Hx _].
      apply andb_true_iff in Hx. apply Hx. }
  assert (Hsince : forall start,
            Store.transactions_since db1 uid uid start
            = Store.transactions_since db2 uid uid start).
  { intros start. unfold Store.transactions_since.
    rewrite (filter_own_then (fun r => String.eqb (Transaction.user_id r) uid)
               _ (Store.transactions db1)),
            (filter_own_then (fun r => String.eqb (Transaction.user_id r) uid)
               _ (Store.transactions db2)).
    - rewrite Ht. reflexivity.
    - intros x Hx. apply andb_true_iff in Hx. destruct Hx as [Hx _].
      apply andb_true_iff in Hx. apply Hx.
    - intros x Hx. apply andb_true_iff in Hx. destruct Hx as [Hx _].
      apply andb_true_iff in Hx. apply Hx. }
  assert (Hexp : forall start,
            Store.expenses_since db1 uid uid start
            = Store.expenses_since db2 uid uid start).
  { intros start. unfold Store.expenses_since.
    rewrite (filter_own_then (fun r => String.eqb (Transaction.user_id r) uid)
               _ (Store.transactions db1)),
            (filter_own_then (fun r => String.eqb (Transaction.user_id r) uid)
               _ (Store.transactions db2)).
    - rewrite Ht. reflexivity.
    - intros x Hx. apply andb_true_iff in Hx. destruct Hx as [Hx _].
      apply andb_true_iff in Hx. destruct Hx as [Hx _].
      apply andb_true_iff in Hx. apply Hx.
    - intros x Hx. apply andb_true_iff in Hx. destruct Hx as [Hx _].
      apply andb_true_iff in Hx. destruct Hx as [Hx _].
      apply andb_true_iff in Hx. apply Hx. }
  assert (Hbud : Store.active_budgets db1 uid uid
                 = Store.active_budgets db2 uid uid).
  { unfold Store.active_budgets.
    rewrite (filter_own_then (fun r => String.eqb (Budget.user_id r) uid)
               _ (Store.budgets db1)),
            (filter_own_then (fun r => String.eqb (Budget.user_id r) uid)
               _ (Store.budgets db2)).
    - rewrite Hb. reflexivity.
    - intros x Hx. apply andb_true_iff in Hx. destruct Hx as [Hx _].
      apply andb_true_iff in Hx. apply Hx.
    - intros x Hx. apply andb_true_iff in Hx. destruct Hx as [Hx _].
      apply andb_true_iff in Hx. apply Hx. }
  unfold Dashboard.loadDashboardData.
  rewrite Hacc, Hsince, Hexp, Hbud. reflexivity.
Qed.

Lemma dashboard_reads_only_own_rows_witness :
  Dashboard.loadDashboardData Sample.db_balance (Some "u1"%string)
                              Sample.now Sample.initial
  = Dashboard.loadDashboardData Scenario.db_balance_alone (Some "u1"%string)
                                Sample.now Sample.initial.
Proof.
  exact (dashboard_reads_only_own_rows Sample.db_balance
           Scenario.db_balance_alone "u1" Sample.now Sample.initial
           eq_refl eq_refl eq_refl).
Defined.

(** X21. For a budget without a category, the spent figure of the budget
    loop is the very number shown as the month's expense: both add up the
    user's expense transactions that the month's request returns, in the
    same order. *)
Theorem uncategorised_spent_is_monthly_expense (db : Store.Database)
  (uid : string) (now : Clock.Date) (st : Dashboard.State) (b : Budget.Row) :
  Budget.category_id b = None ->
  Dashboard.budgetSpent (Spec.loop_transactions db uid now)
                        (Dashboard.select_budget b)
  = Dashboard.monthlyExpense
      (Dashboard.stats (Dashboard.loadDashboardData db (Some uid) now st)).
Proof.
  intros Hcat. unfold Dashboard.budgetSpent. simpl. rewrite Hcat. simpl.
  unfold Spec.loop_transactions, Dashboard.sum_of_type.
  rewrite filter_after_map, !reduce_sum_map. simpl.
  f_equal. unfold Store.expenses_since, Store.transactions_since.
  rewrite filter_filter_and. apply filter_ext. intros t.
  destruct (Store.transaction_policy uid t),
           (String.eqb (Transaction.user_id t) uid),
           (Schema.transaction_type_eqb (Transaction.type t) Schema.expense),
           (Schema.date_geb (Transaction.transaction_date t) _); reflexivity.
Qed.

Lemma uncategorised_spent_is_monthly_expense_witness :
  Dashboard.budgetSpent
    (Spec.loop_transactions Sample.db_all_budget "u1" Sample.now)
    (Dashboard.select_budget (Sample.budget "b2" "u1" None 1000 80 true))
  = Dashboard.monthlyExpense
      (Dashboard.stats
         (Dashboard.loadDashboardData Sample.db_all_budget (Some "u1"%string)
                                      Sample.now Sample.initial)).
Proof.
  exact (uncategorised_spent_is_monthly_expense Sample.db_all_budget "u1"
           Sample.now Sample.initial
           (Sample.budget "b2" "u1" None 1000 80 true) eq_refl).
Defined.

(** X22. A transfer leaves the dashboard as it is: with one more transaction
    of direction transfer in the store, the monthly income, the monthly
    expense, the savings rate, the total balance and the budget alerts are
    all the same. *)
Theorem transfer_leaves_dashboard_unchanged (db : Store.Database)
  (t : Transaction.Row) (uid : string) (now : Clock.Date)
  (st : Dashboard.State) :
  Transaction.type t = Schema.transfer ->
  Dashboard.loadDashboardData (Scenario.with_transaction db t) (Some uid)
                              now st
  = Dashboard.loadDashboardData db (Some uid) now st.
Proof.
  intros Hty. unfold Dashboard.loadDashboardData.
  set (start := Clock.startOfMonth now).
  assert (Hexp : Store.expenses_since (Scenario.with_transaction db t)
                   uid uid start
                 = Store.expenses_since db uid uid start).
  { unfold Store.expenses_since. simpl. rewrite filter_app. simpl.
    rewrite Hty. simpl. rewrite andb_false_r. simpl. apply app_nil_r. }
  assert (Hsum : forall ty, ty <> Schema.transfer ->
    Dashboard.sum_of_type ty
      (map Dashboard.select_amount_type
         (Store.transactions_since (Scenario.with_transaction db t)
            uid uid start))
    = Dashboard.sum_of_type ty
        (map Dashboard.select_amount_type
           (Store.transactions_since db uid uid start))).
  { intros ty Hne. unfold Store.transactions_since. simpl.
    rewrite filter_app. simpl.
    destruct (Store.transaction_policy uid t
              && String.eqb (Transaction.user_id t) uid
              && Schema.date_geb (Transaction.transaction_date t) start).
    - rewrite sum_of_type_snoc, Hty. destruct ty; try reflexivity.
      contradiction.
    - rewrite app_nil_r. reflexivity. }
  rewrite Hexp, !Hsum by discriminate. reflexivity.
Qed.

Lemma transfer_leaves_dashboard_unchanged_witness :
  Dashboard.loadDashboardData
    (Scenario.with_transaction Sample.db_month Scenario.a_transfer)
    (Some "u1"%string) Sample.now Sample.initial
  = Dashboard.loadDashboardData Sample.db_month (Some "u1"%string)
                                Sample.now Sample.initial.
Proof.
  exact (transfer_leaves_dashboard_unchanged Sample.db_month
           Scenario.a_transfer "u1" Sample.now Sample.initial eq_refl).
Defined.

(** X23. What a submission of the account form leads to.  It is ignored
    exactly when nobody is signed in; it fails exactly when somebody is and
    the balance text parses to a finite number whose value rounded to two
    decimal places is out of the range of the column; unless it is submitted
    the store is left exactly as it was. *)
Theorem add_account_outcomes (parseFloat : string -> JS.number)
  (db : Store.Database) (user : option string) (fresh stamp : string)
  (f : AddAccountModal.Form) :
  let r := AddAccountModal.handleSubmit parseFloat db user fresh stamp f in
  (snd r <> AddAccountModal.Submitted -> fst r = db)
  /\ (snd r = AddAccountModal.Ignored <-> user = None)
  /\ (snd r = AddAccountModal.Failed
      <-> user <> None
          /\ exists q,
               parseFloat (AddAccountModal.balance f) = JS.Fin q
               /\ Numeric.in_range (Numeric.round2 q) = false).
Proof.
  unfold AddAccountModal.handleSubmit.
  destruct user as [uid|]; simpl.
  2:{ split; [intros _; reflexivity|].
      split; [split; reflexivity|].
      split; [discriminate | intros [H _]; congruence]. }
  unfold AddAccountModal.insert_account.
  cbn [AddAccountModal.payload AddAccountModal.ins_balance
       AddAccountModal.ins_user_id].
  rewrite String.eqb_refl, opening_balance_stored.
  assert (Hok : forall db1 : Store.Database,
    (~ exists q, parseFloat (AddAccountModal.balance f) = JS.Fin q
                 /\ Numeric.in_range (Numeric.round2 q) = false) ->
    (AddAccountModal.Submitted <> AddAccountModal.Submitted -> db1 = db)
    /\ (AddAccountModal.Submitted = AddAccountModal.Ignored <-> Some uid = None)
    /\ (AddAccountModal.Submitted = AddAccountModal.Failed
        <-> Some uid <> None
            /\ exists q,
                 parseFloat (AddAccountModal.balance f) = JS.Fin q
                 /\ Numeric.in_range (Numeric.round2 q) = false)).
  { intros db1 Hno. split; [intros H; congruence|].
    split; [split; discriminate|].
    split; [discriminate | intros [_ H]; contradiction]. }
  destruct (parseFloat (AddAccountModal.balance f)) as [q| | |] eqn:Hp.
  - destruct (Numeric.in_range (Numeric.round2 q)) eqn:Hfit; cbn [fst snd].
    + apply Hok. intros (q' & E & Hout). injection E as <-. congruence.
    + split; [intros _; reflexivity|].
      split; [split; discriminate|].
      split; [|intros _; reflexivity].
      intros _. split; [discriminate|].
      exists q. split; [reflexivity | exact Hfit].
  - apply Hok. intros (q' & E & _). discriminate.
  - apply Hok. intros (q' & E & _). discriminate.
  - apply Hok. intros (q' & E & _). discriminate.
Qed.
